(** * amazon.aws [s3_object]: a shallow embedding of the reconciliation core

    The module [plugins/modules/s3_object.py] is embedded function by
    function.  Python's control flow is kept: every remote call goes through
    the client object [s3], exceptions propagate until an [except] clause
    takes them, and [module.exit_json] / [module.fail_json] leave the
    program by raising [SystemExit].  A computation threads the state of the
    storage service and records every call it issues, in order. *)

From stdpp Require Import base strings list gmap.
From Stdlib Require Import Ascii ZArith Lia.

#[local] Open Scope Z_scope.
#[local] Open Scope string_scope.

(** ** Python values *)

Abbreviation tags_dict := (gmap string string).

(** Truth value of an optional string: [None] and the empty string are
    falsy. *)
Definition truthy (o : option string) : bool :=
  match o with
  | Some s => negb (String.eqb s EmptyString)
  | None => false
  end.

(** The double quote, as a string. *)
Definition dquote : string := String "034"%char EmptyString.

(** [pat in s] on strings. *)
Definition contains (pat s : string) : bool :=
  match String.index 0 pat s with
  | Some _ => true
  | None => false
  end.

(** ** Exceptions *)

(** What the client library and the local runtime raise. *)
Inductive boto_exn : Type :=
| ClientError (code message : string)
| BotoCoreError (name : string)
| SSLError (reason : string)
| OSError (reason : string).

(** Keyword arguments of [module.exit_json]; an absent keyword is [None]. *)
Record exit_kwargs : Type := ExitKwargs {
  ek_msg : option string;
  ek_changed : option bool;
  ek_url : option string;
  ek_tags : option tags_dict;
  ek_expiry : option Z;
  ek_contents : option string;
  ek_s3_keys : option (list string);
  ek_failed : option bool
}.

(** Keyword arguments of [module.fail_json] and [module.fail_json_aws]. *)
Record fail_kwargs : Type := FailKwargs {
  fk_msg : string;
  fk_exception : option boto_exn;
  fk_requested_tags : option tags_dict;
  fk_live_tags : option tags_dict
}.

Inductive module_result : Type :=
| ExitJson (kw : exit_kwargs)
| FailJson (kw : fail_kwargs).

Inductive exn : Type :=
| Boto (e : boto_exn)
| Sigv4Required
| S3ObjectFailure (message : string) (original_e : option boto_exn)
| KeyError (key : string)
| TypeError (what : string)
| AttributeError (what : string)
| SystemExit (r : module_result).

(** Modelled from the spec: [is_boto3_error_code] of [module_utils.core] is
    not among the sources.  The spec recognises a backend fault by its error
    code (not-found, access-denied, unsupported operation); the helper
    selects a [ClientError] whose code is one of [codes]. *)
Definition is_boto3_error_code (codes : list string) (e : boto_exn) : bool :=
  match e with
  | ClientError code _ => bool_decide (code ∈ codes)
  | _ => false
  end.

(** Modelled from the spec: [is_boto3_error_message] of [module_utils.core]
    is not among the sources.  The spec has the signature fault "recognized
    by message pattern"; the helper selects a [ClientError] whose message
    holds [msg]. *)
Definition is_boto3_error_message (msg : string) (e : boto_exn) : bool :=
  match e with
  | ClientError _ message => contains msg message
  | _ => false
  end.

(** [except (botocore.exceptions.BotoCoreError, botocore.exceptions.ClientError)] *)
Definition is_botocore_error (e : boto_exn) : bool :=
  match e with
  | ClientError _ _ | BotoCoreError _ => true
  | SSLError _ | OSError _ => false
  end.

(** [except botocore.exceptions.EndpointConnectionError] *)
Definition is_endpoint_connection_error (e : boto_exn) : bool :=
  match e with
  | BotoCoreError name => String.eqb name "EndpointConnectionError"
  | _ => false
  end.

Definition IGNORE_S3_DROP_IN_EXCEPTIONS : list string :=
  ["XNotImplemented"; "NotImplemented"].

(** ** The client and the calls of the wire API *)

(** The client object returned by [get_s3_connection]. *)
Record conn : Type := Conn {
  conn_location : string;
  conn_ceph : bool;
  conn_endpoint_url : option string;
  conn_sig_4 : bool
}.

(** [{"Key": k, "VersionId": v}], or [{"Key": k}] when [v] is [None]. *)
Record object_identifier : Type := ObjectIdentifier {
  oi_Key : string;
  oi_VersionId : option string
}.

(** [copy_src], and the [CopySource] of a copy. *)
Record copy_source : Type := CopySource {
  cs_Bucket : string;
  cs_Key : string;
  cs_VersionId : option string
}.

(** The calls of the client.  A key, a version or a file name is passed as
    the module holds it, [None] included.  The ExtraArgs of an upload or a
    copy (encryption, canned ACL, content type, metadata) come from pure
    code and are left out of the record of a call. *)
Inductive api_call : Type :=
| HeadObject (Bucket : string) (Key VersionId : option string)
| HeadBucket (Bucket : string)
| CreateBucket (Bucket : string) (LocationConstraint : option string)
| WaitBucketExists (Bucket : string)
| PutBucketAcl (ACL Bucket : string)
| GetBucketOwnershipControls (Bucket : string)
| ListObjectVersions (Bucket : string)
| ListObjectsV2 (Bucket : string) (Prefix StartAfter : option string)
    (MaxKeys : option Z)
| DeleteObjects (Bucket : string) (Objects : list object_identifier)
| DeleteBucket (Bucket : string)
| DeleteObject (Bucket : string) (Key : option string)
| PutObject (Bucket : string) (Key : option string) (Body : string)
| PutObjectAcl (ACL Bucket : string) (Key : option string)
| UploadFile (Filename Bucket : string) (Key : option string)
| UploadFileobj (Fileobj : option string) (Bucket : string)
    (Key : option string)
| GetObject (Bucket : string) (Key VersionId : option string)
| DownloadFile (Bucket : string) (Key Filename VersionId : option string)
| CopyObject (Bucket : string) (Key : option string) (src : copy_source)
| GeneratePresignedUrl (ClientMethod Bucket : string) (Key : option string)
    (ExpiresIn : Z)
| GetObjectTagging (Bucket : string) (Key VersionId : option string)
| PutObjectTagging (Bucket : string) (Key : option string)
    (TagSet : tags_dict)
| DeleteObjectTagging (Bucket : string) (Key : option string).

(** The fields of a [head_object] response that the module reads. *)
Record head_info : Type := HeadInfo {
  hi_ETag : string;
  hi_LastModified : Z
}.

(** One page of [list_object_versions]. *)
Record versions_page : Type := VersionsPage {
  vp_DeleteMarkers : list (string * string);
  vp_Versions : list (string * string)
}.

(** What a paginator hands out: the pages it yields, and the exception it
    raises after them, if any. *)
Definition paged (A : Type) : Type := (list A * option boto_exn)%type.

(** The value a successful call returns.  A [head_object] response may be
    falsy ([None]); [GetBucketOwnershipControls] returns the
    [ObjectOwnership] of the first rule, if there is a rule; the tagging
    call returns its [TagSet] as a dict. *)
Definition reply (c : api_call) : Type :=
  match c with
  | HeadObject _ _ _ => option head_info
  | GetObject _ _ _ => string
  | GetBucketOwnershipControls _ => option string
  | ListObjectVersions _ => paged versions_page
  | ListObjectsV2 _ _ _ _ => paged (list string)
  | GeneratePresignedUrl _ _ _ _ => string
  | GetObjectTagging _ _ _ => tags_dict
  | _ => unit
  end.

(** Everything a run leaves behind, in order. *)
Inductive event : Type :=
| Api (s3 : conn) (c : api_call)
| Connect (s3 : conn)
| Sleep (seconds : Z)
| Warn (msg : string)
| Deprecate (msg : string).

(** ** The module object and its parameters *)

Inductive mode : Type :=
| mode_get | mode_put | mode_delete | mode_create | mode_geturl
| mode_getstr | mode_delobj | mode_list | mode_copy.

(** [module.params], typed by [argument_spec]. *)
Record params : Type := Params {
  p_bucket : string;
  p_dest : option string;
  p_encrypt : bool;
  p_encryption_mode : string;
  p_expiry : Z;
  p_headers : option (gmap string string);
  p_marker : string;
  p_max_keys : Z;
  p_metadata : option (gmap string string);
  p_mode : mode;
  p_sig_v4 : bool;
  p_object : option string;
  p_permission : list string;
  p_version : option string;
  p_overwrite : option string;
  p_prefix : string;
  p_retries : Z;
  p_dualstack : bool;
  p_ceph : bool;
  p_src : option string;
  p_content : option string;
  p_content_base64 : option string;
  p_ignore_nonexistent_bucket : bool;
  p_encryption_kms_key_id : option string;
  p_tags : option tags_dict;
  p_purge_tags : bool;
  p_copy_src : option copy_source;
  p_validate_bucket_name : bool;
  p_endpoint_url : option string
}.

Record ansible_module : Type := AnsibleModule {
  check_mode : bool;
  module_params : params
}.

(** The controller host: what the module reads from the local file system
    and the runtime. *)
Record host : Type := Host {
  os_path_exists : string → bool;
  os_path_getmtime : string → Z;
  standard_b64decode : string → string;
  environ_S3_URL : option string;
  region : option string;
  HAS_MD5 : bool;
  (** Modelled from the spec: [calculate_etag] and [calculate_etag_content]
      of [module_utils.s3] are not among the sources.  The spec has them
      compute "a content fingerprint of the local data" that depends on the
      data and on the remote ETag (single-part or multipart digest). *)
  calculate_etag : string → option string → option string;
  calculate_etag_content : option string → option string → option string;
  (** Modelled from the spec: [validate_bucket_name] of [module_utils.s3] is
      not among the sources; the "bucket-name rules" accept the name or end
      the run with the exception given here. *)
  validate_bucket_name : string → option exn;
  (** [module.boolean] of Ansible: the value it returns, or the message of
      the failure it ends the module with. *)
  module_boolean : option string → string + option bool
}.

(** The dict [s3_vars]: the entries copied from [module.params], and the
    entries [populate_facts] and [validate_bucket] add.  An entry that may
    be missing from the dict is an option. *)
Record s3_vars : Type := S3Vars {
  v_params : params;
  v_location : string;
  v_validate : bool;
  v_acl_disabled : bool;
  v_bucket_acl : option (list string);
  v_object_acl : option (list string);
  v_bucketrtn : option bool
}.

Definition object_canned_acl : list string :=
  ["private"; "public-read"; "public-read-write"; "aws-exec-read";
   "authenticated-read"; "bucket-owner-read"; "bucket-owner-full-control"].

Definition bucket_canned_acl : list string :=
  ["private"; "public-read"; "public-read-write"; "authenticated-read"].

(** [s3_vars[key] = value] for the keys the module assigns. *)
Definition set_overwrite (o : option string) (p : params) : params :=
  Params (p_bucket p) (p_dest p) (p_encrypt p) (p_encryption_mode p)
    (p_expiry p) (p_headers p) (p_marker p) (p_max_keys p) (p_metadata p)
    (p_mode p) (p_sig_v4 p) (p_object p) (p_permission p) (p_version p)
    o (p_prefix p) (p_retries p) (p_dualstack p) (p_ceph p) (p_src p)
    (p_content p) (p_content_base64 p) (p_ignore_nonexistent_bucket p)
    (p_encryption_kms_key_id p) (p_tags p) (p_purge_tags p) (p_copy_src p)
    (p_validate_bucket_name p) (p_endpoint_url p).

Definition set_endpoint_url (u : option string) (p : params) : params :=
  Params (p_bucket p) (p_dest p) (p_encrypt p) (p_encryption_mode p)
    (p_expiry p) (p_headers p) (p_marker p) (p_max_keys p) (p_metadata p)
    (p_mode p) (p_sig_v4 p) (p_object p) (p_permission p) (p_version p)
    (p_overwrite p) (p_prefix p) (p_retries p) (p_dualstack p) (p_ceph p)
    (p_src p) (p_content p) (p_content_base64 p)
    (p_ignore_nonexistent_bucket p) (p_encryption_kms_key_id p) (p_tags p)
    (p_purge_tags p) (p_copy_src p) (p_validate_bucket_name p) u.

Definition set_object (o : option string) (p : params) : params :=
  Params (p_bucket p) (p_dest p) (p_encrypt p) (p_encryption_mode p)
    (p_expiry p) (p_headers p) (p_marker p) (p_max_keys p) (p_metadata p)
    (p_mode p) (p_sig_v4 p) o (p_permission p) (p_version p)
    (p_overwrite p) (p_prefix p) (p_retries p) (p_dualstack p) (p_ceph p)
    (p_src p) (p_content p) (p_content_base64 p)
    (p_ignore_nonexistent_bucket p) (p_encryption_kms_key_id p) (p_tags p)
    (p_purge_tags p) (p_copy_src p) (p_validate_bucket_name p)
    (p_endpoint_url p).

Definition set_permission (l : list string) (p : params) : params :=
  Params (p_bucket p) (p_dest p) (p_encrypt p) (p_encryption_mode p)
    (p_expiry p) (p_headers p) (p_marker p) (p_max_keys p) (p_metadata p)
    (p_mode p) (p_sig_v4 p) (p_object p) l (p_version p)
    (p_overwrite p) (p_prefix p) (p_retries p) (p_dualstack p) (p_ceph p)
    (p_src p) (p_content p) (p_content_base64 p)
    (p_ignore_nonexistent_bucket p) (p_encryption_kms_key_id p) (p_tags p)
    (p_purge_tags p) (p_copy_src p) (p_validate_bucket_name p)
    (p_endpoint_url p).

Definition with_params (f : params → params) (v : s3_vars) : s3_vars :=
  S3Vars (f (v_params v)) (v_location v) (v_validate v) (v_acl_disabled v)
    (v_bucket_acl v) (v_object_acl v) (v_bucketrtn v).

(** The keys of [s3_vars] that hold a string or [None]; any other key is
    looked up as missing.  Neither [argument_spec] nor [populate_facts] nor
    [validate_bucket] has a key ["obj"]. *)
Definition s3_vars_str (v : s3_vars) (key : string) : option (option string) :=
  if decide (key = "bucket") then Some (Some (p_bucket (v_params v)))
  else if decide (key = "object") then Some (p_object (v_params v))
  else if decide (key = "dest") then Some (p_dest (v_params v))
  else if decide (key = "version") then Some (p_version (v_params v))
  else if decide (key = "src") then Some (p_src (v_params v))
  else if decide (key = "content") then Some (p_content (v_params v))
  else if decide (key = "content_base64")
    then Some (p_content_base64 (v_params v))
  else if decide (key = "overwrite") then Some (p_overwrite (v_params v))
  else if decide (key = "location") then Some (Some (v_location v))
  else if decide (key = "endpoint_url")
    then Some (p_endpoint_url (v_params v))
  else None.

(** [str(o)] as ["%s" % o] prints it. *)
Definition py_str (o : option string) : string := default "None" o.

(** ** Computations *)

Section Run.

Context {St : Type}.

Record run (A : Type) : Type := Run {
  outcome : exn + A;
  final : St;
  trace : list event
}.
#[global] Arguments Run {A} _ _ _.
#[global] Arguments outcome {A} _.
#[global] Arguments final {A} _.
#[global] Arguments trace {A} _.

Definition M (A : Type) : Type := St → run A.

#[global] Instance M_ret : MRet M := λ A a s, Run (inr a) s [].

#[global] Instance M_bind : MBind M := λ A B f m s,
  let r := m s in
  match outcome r with
  | inl e => Run (inl e) (final r) (trace r)
  | inr a =>
      let r2 := f a (final r) in
      Run (outcome r2) (final r2) (trace r ++ trace r2)
  end.

Definition raise {A : Type} (e : exn) : M A := λ s, Run (inl e) s [].

Definition emit (ev : event) : M unit := λ s, Run (inr tt) s [ev].

(** [try: m except ...]: [h e] is the body of the first clause that takes
    [e], and [None] when no clause does. *)
Definition try_except {A : Type} (m : M A) (h : exn → option (M A)) : M A :=
  λ s,
  let r := m s in
  match outcome r with
  | inr _ => r
  | inl e =>
      match h e with
      | None => r
      | Some k =>
          let r2 := k (final r) in
          Run (outcome r2) (final r2) (trace r ++ trace r2)
      end
  end.

(** Clauses that only take exceptions of the client library. *)
Definition on_boto {A : Type} (h : boto_exn → option (M A)) (e : exn)
  : option (M A) :=
  match e with
  | Boto b => h b
  | _ => None
  end.


(** [m] for every element of [l], in order: [for x in l: m]. *)
Fixpoint for_each {A : Type} (l : list A) (body : A → M unit) : M unit :=
  match l with
  | [] => mret tt
  | x :: l' => body x;; for_each l' body
  end.

(** [d[key]] on a dict that may lack [key]. *)
Definition getitem {A : Type} (key : string) (o : option A) : M A :=
  match o with
  | Some a => mret a
  | None => raise (KeyError key)
  end.

(** The storage service: how it answers a call in a given state. *)
Variable respond : St → conn → ∀ c : api_call, St * (boto_exn + reply c).

Definition call (s3 : conn) (c : api_call) : M (reply c) := λ s,
  let r := respond s s3 c in
  Run (match r.2 with inl e => inl (Boto e) | inr v => inr v end)
      r.1 [Api s3 c].

(** *** Leaving the module *)

Definition no_kwargs : exit_kwargs :=
  ExitKwargs None None None None None None None None.

(** [exit_json(msg=msg, changed=changed)] *)
Definition msg_changed (msg : string) (changed : bool) : exit_kwargs :=
  ExitKwargs (Some msg) (Some changed) None None None None None None.

Definition exit_json {A : Type} (kw : exit_kwargs) : M A :=
  raise (SystemExit (ExitJson kw)).

Definition fail_json {A : Type} (msg : string) : M A :=
  raise (SystemExit (FailJson (FailKwargs msg None None None))).

(** Modelled from the spec: [fail_json_aws] of [module_utils.core] is not
    among the sources.  "All fatal conditions carry the originating cause
    and a human-readable context message". *)
Definition fail_json_aws {A : Type} (e : boto_exn) (msg : string) : M A :=
  raise (SystemExit (FailJson (FailKwargs msg (Some e) None None))).

(** [if module.check_mode: module.exit_json(msg=msg, changed=True)] *)
Definition check_mode_exit (module : ansible_module) (msg : string)
  : M unit :=
  if check_mode module then exit_json (msg_changed msg true) else mret tt.

(** The clause [except (BotoCoreError, ClientError) as e: raise
    S3ObjectFailure(msg, e)]. *)
Definition wrap_failure {A : Type} (msg : string) (e : boto_exn)
  : option (M A) :=
  if is_botocore_error e then Some (raise (S3ObjectFailure msg (Some e)))
  else None.

(** The [VersionId] keyword is passed only for a truthy [version]. *)
Definition version_kw (version : option string) : option string :=
  if truthy version then version else None.

(** Modelled from the spec: [get_s3_connection] of [module_utils.s3] is not
    among the sources.  It "re-establish[es] the transport connection",
    with signature version 4 when [sig_4] is set. *)
Definition get_s3_connection (module : ansible_module) (location : string)
    (ceph : bool) (endpoint_url : option string) (sig_4 : bool) : M conn :=
  let s3 := Conn location ceph endpoint_url sig_4 in
  emit (Connect s3);; mret s3.

(** *** Existence probes *)

Definition key_check (module : ansible_module) (s3 : conn)
    (bucket : string) (obj version : option string) (validate : bool)
  : M bool :=
  try_except
    (call s3 (HeadObject bucket obj (version_kw version));; mret true)
    (on_boto (λ e,
       if is_boto3_error_code ["404"] e then Some (mret false)
       else if is_boto3_error_code ["403"] e then
         Some (if validate
               then fail_json_aws e
                      ("Failed while looking up object (during key check) "
                       +:+ py_str obj +:+ ".")
               else mret true)
       else wrap_failure
              ("Failed while looking up object (during key check) "
               +:+ py_str obj +:+ ".") e)).

Definition get_etag (s3 : conn) (bucket : string)
    (obj version : option string) : M (option string) :=
  try_except
    (key_check ← call s3 (HeadObject bucket obj (version_kw version));
     match key_check with
     | None => mret None
     | Some h => mret (Some (hi_ETag h))
     end)
    (on_boto (λ e,
       if is_boto3_error_code ["404"] e then Some (mret None) else None)).

Variable h : host.

Definition etag_compare (module : ansible_module) (s3 : conn)
    (bucket : string) (obj version local_file content : option string)
  : M bool :=
  s3_etag ← get_etag s3 bucket obj version;
  let local_etag :=
    match local_file with
    | Some f => calculate_etag h f s3_etag
    | None => calculate_etag_content h content s3_etag
    end in
  mret (bool_decide (s3_etag = local_etag)).

Definition get_s3_last_modified_timestamp (s3 : conn) (bucket : string)
    (obj version : option string) : M (option Z) :=
  key_check ← call s3 (HeadObject bucket obj (version_kw version));
  match key_check with
  | None => mret None
  | Some hd => mret (Some (hi_LastModified hd))
  end.

Definition is_local_object_latest (s3 : conn) (bucket : string)
    (obj version local_file : option string) : M bool :=
  s3_last_modified ← get_s3_last_modified_timestamp s3 bucket obj version;
  match local_file with
  | None => raise (TypeError "os.path.exists(None)")
  | Some f =>
      if negb (os_path_exists h f) then mret false
      else
        match s3_last_modified with
        | None => raise (TypeError "None <= float")
        | Some t => mret (Z.leb t (os_path_getmtime h f))
        end
  end.

Definition bucket_check (module : ansible_module) (s3 : conn)
    (bucket : string) (validate : bool) : M bool :=
  try_except
    (call s3 (HeadBucket bucket);; mret true)
    (on_boto (λ e,
       if is_boto3_error_code ["404"] e then Some (mret false)
       else if is_boto3_error_code ["403"] e then
         Some (if validate
               then fail_json_aws e
                      ("Failed while looking up bucket (during bucket_check) "
                       +:+ bucket +:+ ".")
               else mret true)
       else wrap_failure
              ("Failed while looking up bucket (during bucket_check) "
               +:+ bucket +:+ ".") e)).

Definition path_check (path : string) : bool :=
  if os_path_exists h path then true else false.

(** *** Tags *)

(** Modelled from the spec: [boto3_tag_list_to_ansible_dict] of
    [module_utils.ec2] is not among the sources; the "current tag mapping"
    is the [TagSet] of the response read as a dict. *)
Definition get_current_object_tags_dict (s3 : conn) (bucket : string)
    (obj version : option string) : M tags_dict :=
  call s3 (GetObjectTagging bucket obj (version_kw version)).

(** Modelled from the spec: the decorator [AWSRetry.jittered_backoff] of
    [module_utils.ec2] is not among the sources; the decorated function is
    one call that "replace[s] the full remote tag set". *)
Definition put_object_tagging (s3 : conn) (bucket : string)
    (obj : option string) (tags : tags_dict) : M unit :=
  call s3 (PutObjectTagging bucket obj tags).

Definition delete_object_tagging (s3 : conn) (bucket : string)
    (obj : option string) : M unit :=
  call s3 (DeleteObjectTagging bucket obj).

(** The loop [for dummy in range(0, 12)] with [n] rounds to go; [last] is
    the value of [current_tags_dict] when the round starts. *)
Fixpoint wait_tags_loop (n : nat) (last : option tags_dict)
    (module : ansible_module) (s3 : conn) (bucket : string)
    (obj : option string) (expected_tags_dict : tags_dict)
    (version : option string) : M tags_dict :=
  match n with
  | O =>
      raise (SystemExit (FailJson
        (FailKwargs "Object tags failed to apply in the expected time."
           None (Some expected_tags_dict) last)))
  | S n' =>
      current_tags_dict ←
        try_except (get_current_object_tags_dict s3 bucket obj version)
          (on_boto (wrap_failure "Failed to get object tags."));
      if bool_decide (current_tags_dict ≠ expected_tags_dict) then
        emit (Sleep 5);;
        wait_tags_loop n' (Some current_tags_dict) module s3 bucket obj
          expected_tags_dict version
      else mret current_tags_dict
  end.

Definition wait_tags_are_applied (module : ansible_module) (s3 : conn)
    (bucket : string) (obj : option string) (expected_tags_dict : tags_dict)
    (version : option string) : M tags_dict :=
  wait_tags_loop 12 None module s3 bucket obj expected_tags_dict version.

(** The tags [ensure_tags] works towards: [tags] itself, or
    [current_copy.update(tags)] when [purge_tags] is off. *)
Definition merged_tags (purge_tags : bool) (tags current : tags_dict)
  : tags_dict :=
  if purge_tags then tags else tags ∪ current.

Definition ensure_tags (client : conn) (module : ansible_module)
    (bucket : string) (obj : option string) : M (tags_dict * bool) :=
  let tags := p_tags (module_params module) in
  let purge_tags := p_purge_tags (module_params module) in
  current_tags_dict ←
    try_except (get_current_object_tags_dict client bucket obj None)
      (on_boto (wrap_failure "Failed to get object tags."));
  match tags with
  | None => mret (current_tags_dict, false)
  | Some tags =>
      let tags := merged_tags purge_tags tags current_tags_dict in
      if bool_decide (current_tags_dict ≠ tags) then
        (if bool_decide (tags ≠ ∅) then
           try_except (put_object_tagging client bucket obj tags)
             (on_boto (wrap_failure "Failed to update object tags."))
         else if purge_tags then
           try_except (delete_object_tagging client bucket obj)
             (on_boto (wrap_failure "Failed to delete object tags."))
         else mret tt);;
        current_tags_dict ←
          wait_tags_are_applied module client bucket obj tags None;
        mret (current_tags_dict, true)
      else mret (current_tags_dict, false)
  end.

(** *** Presigned URLs *)

Definition get_download_url (module : ansible_module) (s3 : conn)
    (bucket : string) (obj : option string) (expiry : Z)
    (tags : option tags_dict) (changed : bool) : M unit :=
  try_except
    (url ← call s3 (GeneratePresignedUrl "get_object" bucket obj expiry);
     exit_json (ExitKwargs (Some "Download url:") (Some changed) (Some url)
                  tags (Some expiry) None None None))
    (on_boto (wrap_failure "Failed while getting download url.")).

Definition put_download_url (s3 : conn) (bucket : string)
    (obj : option string) (expiry : Z) : M string :=
  try_except
    (call s3 (GeneratePresignedUrl "put_object" bucket obj expiry))
    (on_boto (wrap_failure "Unable to generate presigned URL")).

(** *** Buckets *)

Definition create_bucket (module : ansible_module) (s3 : conn)
    (bucket : string) (location : option string) : M bool :=
  emit (Deprecate "Support for creating S3 buckets using the s3_object module has been deprecated.  Please use the ``s3_bucket`` module instead.");;
  check_mode_exit module "CREATE operation skipped - running in check mode";;
  let configuration :=
    match location with
    | None => None
    | Some l => if decide (l = "us-east-1") then None else Some l
    end in
  try_except
    (call s3 (CreateBucket bucket configuration);;
     (match p_permission (module_params module) with
      | [] => mret tt
      | _ :: _ => call s3 (WaitBucketExists bucket)
      end);;
     for_each (p_permission (module_params module))
       (λ acl, call s3 (PutBucketAcl acl bucket)))
    (on_boto (λ e,
       if is_boto3_error_code IGNORE_S3_DROP_IN_EXCEPTIONS e then
         Some (emit (Warn "PutBucketAcl is not implemented by your storage provider. Set the permission parameters to the empty list to avoid this warning"))
       else wrap_failure "Failed while creating bucket or setting acl (check that you have CreateBucket and PutBucketAcl permission)." e));;
  mret (negb (String.eqb bucket EmptyString)).

(** A paginator as the module drives it: one listing call, whose answer is
    the pages handed out and the exception raised after them, if any. *)
Definition paginate {A : Type} (listing : M (paged A)) : M (paged A) :=
  try_except listing (on_boto (λ e, Some (mret ([], Some e)))).

Definition reraise (err : option boto_exn) : M unit :=
  match err with
  | Some e => raise (Boto e)
  | None => mret tt
  end.

(** [for x in gen: body]: the items are consumed in order, and the
    exception of the generator comes after the last of them. *)
Definition for_in {A : Type} (gen : M (paged A)) (body : A → M unit)
  : M unit :=
  r ← gen;
  for_each r.1 body;;
  reraise r.2.

Definition paginated_list (s3 : conn) (bucket : string)
    (prefix start_after : option string) (max_keys : option Z)
  : M (paged string) :=
  r ← paginate (call s3 (ListObjectsV2 bucket prefix start_after max_keys));
  mret (concat r.1, r.2).

Definition version_keys (page : versions_page) : list object_identifier :=
  let delete_markers :=
    map (λ data, ObjectIdentifier data.1 (Some data.2))
      (vp_DeleteMarkers page) in
  let current_objects :=
    map (λ data, ObjectIdentifier data.1 (Some data.2)) (vp_Versions page) in
  delete_markers ++ current_objects.

(** This generator falls back to a second listing after it has handed out
    pages, so it is embedded together with the loop that consumes it:
    [body] is the body of that loop. *)
Definition paginated_versioned_list_with_fallback (s3 : conn)
    (bucket : string) (body : list object_identifier → M unit) : M unit :=
  r ← paginate (call s3 (ListObjectVersions bucket));
  for_each r.1 (λ page, body (version_keys page));;
  match r.2 with
  | None => mret tt
  | Some e =>
      if is_boto3_error_code
           (IGNORE_S3_DROP_IN_EXCEPTIONS ++ ["AccessDenied"]) e
      then
        for_in (paginated_list s3 bucket None None None)
          (λ key, body [ObjectIdentifier key None])
      else raise (Boto e)
  end.

Definition list_keys (module : ansible_module) (s3 : conn) (bucket : string)
    (prefix marker : string) (max_keys : Z) : M unit :=
  let nonempty (x : string) := if String.eqb x EmptyString then None else Some x in
  try_except
    (r ← paginated_list s3 bucket (nonempty prefix) (nonempty marker)
           (if Z.eqb max_keys 0 then None else Some max_keys);
     reraise r.2;;
     exit_json (ExitKwargs (Some "LIST operation complete") None None None
                  None None (Some r.1) None))
    (on_boto (wrap_failure
       ("Failed while listing the keys in the bucket " +:+ bucket))).

Definition delete_bucket (module : ansible_module) (s3 : conn)
    (bucket : string) : M bool :=
  emit (Deprecate "Support for deleting S3 buckets using the s3_object module has been deprecated.  Please use the ``s3_bucket`` module instead.");;
  check_mode_exit module "DELETE operation skipped - running in check mode";;
  try_except
    (exists_ ← bucket_check module s3 bucket true;
     if negb exists_ then mret false
     else
       paginated_versioned_list_with_fallback s3 bucket
         (λ keys,
            match keys with
            | [] => mret tt
            | _ :: _ => call s3 (DeleteObjects bucket keys)
            end);;
       call s3 (DeleteBucket bucket);;
       mret true)
    (on_boto (λ e,
       if is_boto3_error_code ["NoSuchBucket"] e then Some (mret false)
       else wrap_failure ("Failed while deleting bucket " +:+ bucket +:+ ".")
              e)).

Definition delete_key (module : ansible_module) (s3 : conn) (bucket : string)
    (obj : option string) : M bool :=
  check_mode_exit module "DELETE operation skipped - running in check mode";;
  try_except
    (call s3 (DeleteObject bucket obj);;
     exit_json (msg_changed ("Object deleted from bucket " +:+ bucket +:+ ".")
                  true))
    (on_boto (wrap_failure
       ("Failed while trying to delete " +:+ py_str obj +:+ "."))).

(** *** Objects *)

(** [params] of [put_object_acl] is the body of the object to put first,
    when there is one. *)
Definition put_object_acl (module : ansible_module) (s3 : conn)
    (bucket : string) (obj : option string) (params : option string)
  : M unit :=
  try_except
    ((match params with
      | Some body => call s3 (PutObject bucket obj body)
      | None => mret tt
      end);;
     for_each (p_permission (module_params module))
       (λ acl, call s3 (PutObjectAcl acl bucket obj)))
    (on_boto (λ e,
       if is_boto3_error_code ["AccessControlListNotSupported"] e then
         Some (emit (Warn "PutObjectAcl operation : The bucket does not allow ACLs."))
       else wrap_failure ("Failed while creating object " +:+ py_str obj
                          +:+ ".") e)).

Definition create_dirkey (module : ansible_module) (s3 : conn)
    (bucket : string) (obj : option string) (encrypt : bool) (expiry : Z)
  : M unit :=
  check_mode_exit module "PUT operation skipped - running in check mode";;
  put_object_acl module s3 bucket obj (Some EmptyString);;
  r ← ensure_tags s3 module bucket obj;
  url ← put_download_url s3 bucket obj expiry;
  exit_json (ExitKwargs
    (Some ("Virtual directory " +:+ py_str obj +:+ " created in bucket "
           +:+ bucket))
    (Some true) (Some url) (Some r.1) None None None None).

Definition upload_s3file (module : ansible_module) (s3 : conn)
    (bucket : string) (obj : option string) (expiry : Z)
    (metadata : option (gmap string string)) (encrypt : bool)
    (headers : option (gmap string string)) (src content : option string)
    (acl_disabled : bool) : M unit :=
  check_mode_exit module "PUT operation skipped - running in check mode";;
  try_except
    (match src with
     | Some f =>
         if truthy src then call s3 (UploadFile f bucket obj)
         else call s3 (UploadFileobj content bucket obj)
     | None => call s3 (UploadFileobj content bucket obj)
     end)
    (on_boto (wrap_failure "Unable to complete PUT operation."));;
  (if negb acl_disabled then put_object_acl module s3 bucket obj None
   else mret tt);;
  r ← ensure_tags s3 module bucket obj;
  url ← put_download_url s3 bucket obj expiry;
  exit_json (ExitKwargs (Some "PUT operation complete") (Some true)
               (Some url) (Some r.1) None None None None).

(** The loop [for x in range(0, retries + 1)] from [x] on, with [n] rounds
    to go. *)
Fixpoint download_attempts (n : nat) (x : Z) (module : ansible_module)
    (s3 : conn) (bucket : string) (obj dest : option string) (retries : Z)
    (version : option string) : M unit :=
  match n with
  | O => mret tt
  | S n' =>
      try_except
        (call s3 (DownloadFile bucket obj dest (version_kw version));;
         exit_json (msg_changed "GET operation complete" true))
        (on_boto (λ e,
           if is_botocore_error e then
             Some (if Z.geb x retries then
                     raise (S3ObjectFailure
                              ("Failed while downloading " +:+ py_str obj
                               +:+ ".") (Some e))
                   else mret tt)
           else
             match e with
             | SSLError _ =>
                 Some (if Z.geb x retries
                       then fail_json_aws e "s3 download failed"
                       else mret tt)
             | _ => None
             end));;
      download_attempts n' (x + 1) module s3 bucket obj dest retries version
  end.

Definition download_s3file (module : ansible_module) (s3 : conn)
    (bucket : string) (obj dest : option string) (retries : Z)
    (version : option string) : M unit :=
  check_mode_exit module "GET operation skipped - running in check mode";;
  try_except
    (call s3 (GetObject bucket obj (version_kw version));; mret tt)
    (on_boto (λ e,
       if is_boto3_error_code ["404"; "403"] e then
         Some (fail_json_aws e
                 ("Could not find the key " +:+ py_str obj +:+ "."))
       else if is_boto3_error_message "require AWS Signature Version 4" e
       then Some (raise Sigv4Required)
       else if is_boto3_error_code ["InvalidArgument"] e then
         Some (fail_json_aws e
                 ("Could not find the key " +:+ py_str obj +:+ "."))
       else wrap_failure ("Could not find the key " +:+ py_str obj +:+ ".")
              e));;
  download_attempts (Z.to_nat (retries + 1)) 0 module s3 bucket obj dest
    retries version.

Definition download_s3str (module : ansible_module) (s3 : conn)
    (bucket : string) (obj version : option string) : M unit :=
  check_mode_exit module "GET operation skipped - running in check mode";;
  try_except
    (contents ← call s3 (GetObject bucket obj (version_kw version));
     exit_json (ExitKwargs (Some "GET operation complete") (Some true) None
                  None None (Some contents) None None))
    (on_boto (λ e,
       if is_boto3_error_message "require AWS Signature Version 4" e
       then Some (raise Sigv4Required)
       else if is_boto3_error_code ["InvalidArgument"] e then
         Some (fail_json_aws e
                 ("Failed while getting contents of object " +:+ py_str obj
                  +:+ " as a string."))
       else wrap_failure
              ("Failed while getting contents of object " +:+ py_str obj
               +:+ " as a string.") e)).

Definition copy_object_to_bucket (module : ansible_module) (s3 : conn)
    (bucket : string) (obj : option string) (encrypt : bool)
    (metadata : option (gmap string string)) (validate : bool)
    (d_etag : option string) : M unit :=
  check_mode_exit module "COPY operation skipped - running in check mode";;
  try_except
    (match p_copy_src (module_params module) with
     | None => raise (AttributeError "'NoneType' object has no attribute 'get'")
     | Some copy_src =>
         let version := version_kw (cs_VersionId copy_src) in
         let bucketsrc :=
           CopySource (cs_Bucket copy_src) (cs_Key copy_src) version in
         found ← key_check module s3 (cs_Bucket bucketsrc)
                   (Some (cs_Key bucketsrc)) version validate;
         (if negb found then
            exit_json (msg_changed
              ("Key " +:+ cs_Key bucketsrc +:+ " does not exist in bucket "
               +:+ cs_Bucket bucketsrc +:+ ".") false)
          else mret tt);;
         s_etag ← get_etag s3 (cs_Bucket bucketsrc) (Some (cs_Key bucketsrc))
                    version;
         if bool_decide (s_etag = d_etag) then
           r ← ensure_tags s3 module bucket obj;
           if negb r.2 then
             exit_json (msg_changed
               "ETag from source and destination are the same" false)
           else
             exit_json (ExitKwargs (Some "tags successfully updated.")
                          (Some r.2) None (Some r.1) None None None None)
         else
           call s3 (CopyObject bucket obj bucketsrc);;
           put_object_acl module s3 bucket obj None;;
           r ← ensure_tags s3 module bucket obj;
           exit_json (ExitKwargs
             (Some ("Object copied from bucket " +:+ cs_Bucket bucketsrc
                    +:+ " to bucket " +:+ bucket +:+ "."))
             (Some true) None (Some r.1) None None None None)
     end)
    (on_boto (wrap_failure
       ("Failed while copying object " +:+ py_str obj
        +:+ " from bucket None."))).

Definition get_binary_content (vars : s3_vars) : option string :=
  let bincontent :=
    if truthy (p_content (v_params vars)) then p_content (v_params vars)
    else None in
  if truthy (p_content_base64 (v_params vars)) then
    standard_b64decode h <$> p_content_base64 (v_params vars)
  else bincontent.

(** *** The operations *)

Definition s3_object_do_get (module : ansible_module) (connection : conn)
    (s3_vars : s3_vars) : M unit :=
  let p := v_params s3_vars in
  keyrtn ← key_check module connection (p_bucket p) (p_object p)
             (p_version p) (v_validate s3_vars);
  (if negb (keyrtn : bool) then
     (if truthy (p_version p) then
        fail_json ("Key " +:+ py_str (p_object p) +:+ " with version id "
                   +:+ py_str (p_version p) +:+ " does not exist.")
      else mret tt);;
     fail_json ("Key " +:+ py_str (p_object p) +:+ " does not exist.")
   else mret tt);;
  (if truthy (p_dest p) && path_check (default EmptyString (p_dest p))
      && bool_decide (p_overwrite p ≠ Some "always")
   then
     (if bool_decide (p_overwrite p = Some "never") then
        exit_json (msg_changed
          "Local object already exists and overwrite is disabled." false)
      else mret tt);;
     identical ←
       (if bool_decide (p_overwrite p = Some "different") then
          etag_compare module connection (p_bucket p) (p_object p)
            (p_version p) (p_dest p) None
        else mret false);
     (if (identical : bool) then
        exit_json (msg_changed
          "Local and remote object are identical, ignoring. Use overwrite=always parameter to force."
          false)
      else mret tt);;
     latest ←
       (if bool_decide (p_overwrite p = Some "latest") then
          is_local_object_latest connection (p_bucket p) (p_object p)
            (p_version p) (p_dest p)
        else mret false);
     (if (latest : bool) then
        exit_json (msg_changed
          "Local object is latest, ignoreing. Use overwrite=always parameter to force."
          false)
      else mret tt)
   else mret tt);;
  try_except
    (download_s3file module connection (p_bucket p) (p_object p) (p_dest p)
       (p_retries p) (p_version p))
    (λ e,
       match e with
       | Sigv4Required =>
           Some (connection ← get_s3_connection module (v_location s3_vars)
                                (p_ceph p) (p_endpoint_url p) true;
                 obj ← getitem "obj" (s3_vars_str s3_vars "obj");
                 download_s3file module connection (p_bucket p) obj
                   (p_dest p) (p_retries p) (p_version p))
       | _ => None
       end);;
  exit_json (ExitKwargs None None None None None None None (Some false)).

Definition s3_object_do_put (module : ansible_module) (connection : conn)
    (s3_vars : s3_vars) : M unit :=
  let p := v_params s3_vars in
  (if bool_decide (p_content p = None ∧ p_content_base64 p = None
                   ∧ p_src p = None)
   then fail_json "Either content, content_base64 or src must be specified for PUT operations"
   else mret tt);;
  (match p_src p with
   | Some src =>
       if negb (path_check src) then
         fail_json ("Local object " +:+ dquote +:+ src +:+ dquote
                    +:+ " does not exist for PUT operation")
       else mret tt
   | None => mret tt
   end);;
  bucketrtn ← getitem "bucketrtn" (v_bucketrtn s3_vars);
  r ← (if (bucketrtn : bool) then
         keyrtn ← key_check module connection (p_bucket p) (p_object p)
                    (p_version p) (v_validate s3_vars);
         mret (s3_vars, keyrtn)
       else
         bucket_acl ← getitem "bucket_acl" (v_bucket_acl s3_vars);
         create_bucket module connection (p_bucket p)
           (Some (v_location s3_vars));;
         mret (with_params (set_permission bucket_acl) s3_vars, false));
  let s3_vars := r.1 in
  let keyrtn := r.2 in
  let bincontent := get_binary_content s3_vars in
  (if keyrtn && bool_decide (p_overwrite p ≠ Some "always") then
     skip ←
       (if bool_decide (p_overwrite p = Some "never") then mret true
        else etag_compare module connection (p_bucket p) (p_object p)
               (p_version p) (p_src p) bincontent);
     if (skip : bool) then
       t ← ensure_tags connection module (p_bucket p) (p_object p);
       get_download_url module connection (p_bucket p) (p_object p)
         (p_expiry p) (Some t.1) t.2
     else mret tt
   else mret tt);;
  s3_vars ←
    (if negb (v_acl_disabled s3_vars) then
       object_acl ← getitem "object_acl" (v_object_acl s3_vars);
       mret (with_params (set_permission object_acl) s3_vars)
     else mret s3_vars);
  upload_s3file module connection (p_bucket p) (p_object p) (p_expiry p)
    (p_metadata p) (p_encrypt p) (p_headers p) (p_src p) bincontent
    (v_acl_disabled s3_vars);;
  exit_json (ExitKwargs None None None None None None None (Some false)).

Definition s3_object_do_delobj (module : ansible_module) (connection : conn)
    (s3_vars : s3_vars) : M unit :=
  let p := v_params s3_vars in
  if negb (truthy (p_object p)) then
    fail_json "object parameter is required"
  else
    deleted ←
      (if negb (String.eqb (p_bucket p) EmptyString) then
         delete_key module connection (p_bucket p) (p_object p)
       else mret false);
    if (deleted : bool) then
      exit_json (msg_changed
        ("Object deleted from bucket " +:+ p_bucket p +:+ ".") true)
    else fail_json "Bucket parameter is required.".

Definition s3_object_do_delete (module : ansible_module) (connection : conn)
    (s3_vars : s3_vars) : M unit :=
  let p := v_params s3_vars in
  if String.eqb (p_bucket p) EmptyString then
    fail_json "Bucket parameter is required."
  else
    deleted ← delete_bucket module connection (p_bucket p);
    if (deleted : bool) then
      exit_json (msg_changed
        ("Bucket " +:+ p_bucket p +:+ " and all keys have been deleted.")
        true)
    else mret tt.

Definition s3_object_do_list (module : ansible_module) (connection : conn)
    (s3_vars : s3_vars) : M unit :=
  let p := v_params s3_vars in
  if negb (default false (v_bucketrtn s3_vars)) then
    fail_json ("Target bucket (" +:+ p_bucket p +:+ ") cannot be found")
  else
    list_keys module connection (p_bucket p) (p_prefix p) (p_marker p)
      (p_max_keys p).

(** [s.endswith("/")] *)
Fixpoint endswith_slash (s : string) : bool :=
  match s with
  | EmptyString => false
  | String c EmptyString => bool_decide (c = "/"%char)
  | String _ s' => endswith_slash s'
  end.

Definition s3_object_do_create (module : ansible_module) (connection : conn)
    (s3_vars : s3_vars) : M unit :=
  let p := v_params s3_vars in
  let has_bucket := negb (String.eqb (p_bucket p) EmptyString) in
  (if has_bucket && negb (truthy (p_object p)) then
     bucketrtn ← getitem "bucketrtn" (v_bucketrtn s3_vars);
     (if (bucketrtn : bool) then
        exit_json (msg_changed "Bucket already exists." false)
      else mret tt);;
     bucket_acl ← getitem "bucket_acl" (v_bucket_acl s3_vars);
     changed ← create_bucket module connection (p_bucket p)
                 (Some (v_location s3_vars));
     exit_json (msg_changed "Bucket created successfully" changed)
   else mret tt);;
  if has_bucket && truthy (p_object p) then
    let obj :=
      (λ o, if endswith_slash o then o else o +:+ "/") <$> p_object p in
    bucketrtn ← getitem "bucketrtn" (v_bucketrtn s3_vars);
    if (bucketrtn : bool) then
      found ← key_check module connection (p_bucket p) obj None true;
      (if (found : bool) then
         exit_json (msg_changed
           ("Bucket " +:+ p_bucket p +:+ " and key " +:+ py_str obj
            +:+ " already exists.") false)
       else mret tt);;
      (if negb (v_acl_disabled s3_vars) then
         getitem "object_acl" (v_object_acl s3_vars);; mret tt
       else mret tt);;
      create_dirkey module connection (p_bucket p) obj (p_encrypt p)
        (p_expiry p)
    else
      getitem "bucket_acl" (v_bucket_acl s3_vars);;
      create_bucket module connection (p_bucket p)
        (Some (v_location s3_vars));;
      (if negb (v_acl_disabled s3_vars) then
         getitem "object_acl" (v_object_acl s3_vars);; mret tt
       else mret tt);;
      create_dirkey module connection (p_bucket p) obj (p_encrypt p)
        (p_expiry p)
  else mret tt.

Definition s3_object_do_geturl (module : ansible_module) (connection : conn)
    (s3_vars : s3_vars) : M unit :=
  let p := v_params s3_vars in
  (if String.eqb (p_bucket p) EmptyString && negb (truthy (p_object p)) then
     fail_json "Bucket and Object parameters must be set"
   else mret tt);;
  found ← key_check module connection (p_bucket p) (p_object p)
            (p_version p) (v_validate s3_vars);
  (if (found : bool) then
     tags ← get_current_object_tags_dict connection (p_bucket p)
              (p_object p) (p_version p);
     get_download_url module connection (p_bucket p) (p_object p)
       (p_expiry p) (Some tags) true
   else mret tt);;
  fail_json ("Key " +:+ py_str (p_object p) +:+ " does not exist.").

Definition s3_object_do_getstr (module : ansible_module) (connection : conn)
    (s3_vars : s3_vars) : M unit :=
  let p := v_params s3_vars in
  if negb (String.eqb (p_bucket p) EmptyString) && truthy (p_object p) then
    found ← key_check module connection (p_bucket p) (p_object p)
              (p_version p) (v_validate s3_vars);
    if (found : bool) then
      try_except
        (download_s3str module connection (p_bucket p) (p_object p)
           (p_version p))
        (λ e,
           match e with
           | Sigv4Required =>
               Some (connection ← get_s3_connection module
                                    (v_location s3_vars) (p_ceph p)
                                    (p_endpoint_url p) true;
                     download_s3str module connection (p_bucket p)
                       (p_object p) (p_version p))
           | _ => None
           end)
    else if truthy (p_version p) then
      fail_json ("Key " +:+ py_str (p_object p) +:+ " with version id "
                 +:+ py_str (p_version p) +:+ " does not exist.")
    else fail_json ("Key " +:+ py_str (p_object p) +:+ " does not exist.")
  else mret tt.

Definition s3_object_do_copy (module : ansible_module) (connection : conn)
    (s3_vars : s3_vars) : M unit :=
  let p := v_params s3_vars in
  bucketrtn ← getitem "bucketrtn" (v_bucketrtn s3_vars);
  d_etag ←
    (if (bucketrtn : bool) then
       get_etag connection (p_bucket p) (p_object p) None
     else
       getitem "bucket_acl" (v_bucket_acl s3_vars);;
       create_bucket module connection (p_bucket p)
         (Some (v_location s3_vars));;
       mret None);
  (if negb (v_acl_disabled s3_vars) then
     getitem "object_acl" (v_object_acl s3_vars);; mret tt
   else mret tt);;
  copy_object_to_bucket module connection (p_bucket p) (p_object p)
    (p_encrypt p) (p_metadata p) (v_validate s3_vars) d_etag.

(** *** Request validation and dispatch *)

#[global] Instance mode_eq_dec : EqDecision mode.
Proof. solve_decision. Defined.

Definition populate_facts (module : ansible_module) : M s3_vars :=
  let variable_dict := module_params module in
  (if p_validate_bucket_name variable_dict then
     match validate_bucket_name h (p_bucket variable_dict) with
     | Some e => raise e
     | None => mret tt
     end
   else mret tt);;
  (if bool_decide (p_overwrite variable_dict = Some "different")
      && negb (HAS_MD5 h)
   then fail_json "overwrite=different is unavailable: ETag calculation requires MD5 support"
   else mret tt);;
  variable_dict ←
    (if bool_decide (p_overwrite variable_dict ∉
         [Some "always"; Some "never"; Some "different"; Some "latest"])
     then
       match module_boolean h (p_overwrite variable_dict) with
       | inl msg => fail_json msg
       | inr (Some true) => mret (set_overwrite (Some "always") variable_dict)
       | inr _ => mret (set_overwrite (Some "never") variable_dict)
       end
     else mret variable_dict);
  let location := if truthy (region h) then py_str (region h)
                  else "us-east-1" in
  (if truthy (p_object variable_dict)
      && bool_decide (p_mode variable_dict = mode_delete)
   then fail_json "Parameter obj cannot be used with mode=delete"
   else mret tt);;
  variable_dict ←
    (match environ_S3_URL h with
     | Some url =>
         if negb (truthy (p_endpoint_url variable_dict)) then
           emit (Deprecate "Support for the 'S3_URL' environment variable has been deprecated.  We recommend using the 'endpoint_url' module parameter.  Alternatively, the 'AWS_URL' environment variable can be used instead.");;
           mret (set_endpoint_url (Some url) variable_dict)
         else mret variable_dict
     | None => mret variable_dict
     end);
  (match p_endpoint_url variable_dict with
   | Some url =>
       if p_dualstack variable_dict && negb (contains "amazonaws.com" url)
       then fail_json "dualstack only applies to AWS S3"
       else mret tt
   | None => mret tt
   end);;
  mret (S3Vars variable_dict location
          (negb (p_ignore_nonexistent_bucket variable_dict)) false
          None None None).

(** [repr] of a list of strings, for ["%s" % error_acl]. *)
Definition py_repr_list (l : list string) : string :=
  "[" +:+ String.concat ", " (map (λ x, "'" +:+ x +:+ "'") l) +:+ "]".

Definition validate_bucket (module : ansible_module) (s3 : conn)
    (var_dict : s3_vars) : M s3_vars :=
  let p := v_params var_dict in
  exists_ ← bucket_check module s3 (p_bucket p) true;
  acl_disabled ←
    (if (exists_ : bool) then
       try_except
         (object_ownership ← call s3 (GetBucketOwnershipControls (p_bucket p));
          if bool_decide (object_ownership = Some "BucketOwnerEnforced")
          then mret true
          else mret (v_acl_disabled var_dict))
         (on_boto (λ e,
            match e with
            | ClientError _ _ => Some (mret (v_acl_disabled var_dict))
            | _ => None
            end))
     else mret (v_acl_disabled var_dict));
  acls ←
    (if negb (acl_disabled : bool) then
       let bucket_acl :=
         filter (λ acl, acl ∈ bucket_canned_acl) (p_permission p) in
       let object_acl :=
         filter (λ acl, acl ∈ object_canned_acl) (p_permission p) in
       let error_acl :=
         filter (λ acl, (acl ∉ bucket_canned_acl) ∧ (acl ∉ object_canned_acl))
           (p_permission p) in
       match error_acl with
       | _ :: _ =>
           fail_json ("Unknown permission specified: "
                      +:+ py_repr_list error_acl)
       | [] => mret (Some bucket_acl, Some object_acl)
       end
     else mret (v_bucket_acl var_dict, v_object_acl var_dict));
  bucketrtn ← bucket_check module s3 (p_bucket p) (v_validate var_dict);
  (if v_validate var_dict
      && bool_decide (p_mode p ∉ [mode_create; mode_put; mode_delete;
                                   mode_copy])
      && negb bucketrtn
   then fail_json "Source bucket cannot be found."
   else mret tt);;
  mret (S3Vars p (v_location var_dict) (v_validate var_dict) acl_disabled
          acls.1 acls.2 (Some bucketrtn)).

Definition func_mapping (m : mode)
  : ansible_module → conn → s3_vars → M unit :=
  match m with
  | mode_get => s3_object_do_get
  | mode_put => s3_object_do_put
  | mode_delobj => s3_object_do_delobj
  | mode_delete => s3_object_do_delete
  | mode_list => s3_object_do_list
  | mode_create => s3_object_do_create
  | mode_geturl => s3_object_do_geturl
  | mode_getstr => s3_object_do_getstr
  | mode_copy => s3_object_do_copy
  end.

(** The [try] statement of [main] and the statement after it.  The [try]
    ends with [true] when [main] goes on to its last statement, and with
    [false] when a clause returns from [main] before. *)
Definition main_dispatch (module : ansible_module) (s3 : conn)
    (s3_object_params : s3_vars) : M unit :=
  let func := func_mapping (p_mode (v_params s3_object_params)) in
  last ←
    try_except (func module s3 s3_object_params;; mret true)
      (λ e,
         match e with
         | Boto b =>
             if is_endpoint_connection_error b
             then Some (fail_json_aws b "Invalid endpoint provided")
             else if is_boto3_error_code IGNORE_S3_DROP_IN_EXCEPTIONS b then
               Some (emit (Warn "PutObjectAcl is not implemented by your storage provider. Set the permissions parameters to the empty list to avoid this warning");;
                     mret true)
             else if is_boto3_error_code ["NoSuchTagSet"] b then
               Some (mret false)
             else if is_boto3_error_code ["NoSuchTagSetError"] b then
               Some (mret false)
             else None
         | S3ObjectFailure message original_e =>
             Some (match original_e with
                   | Some cause => fail_json_aws cause message
                   | None => fail_json message
                   end)
         | _ => None
         end);
  if (last : bool) then
    exit_json (ExitKwargs None None None None None None None (Some false))
  else mret tt.

Definition main (module : ansible_module) : M unit :=
  s3_object_params ← populate_facts module;
  let p := v_params s3_object_params in
  s3 ← get_s3_connection module (v_location s3_object_params) (p_ceph p)
         (p_endpoint_url p) (p_sig_v4 p);
  s3_object_params ← validate_bucket module s3 s3_object_params;
  main_dispatch module s3 s3_object_params.

End Run.

(** ** Ansible's [module.boolean]

    [AnsibleModule.boolean] returns [None] for [None], the Boolean a
    string stands for once lowered and stripped, and fails the module for
    any other string.  A string is the UTF-8 encoding of the text.
    [str.strip] removes, at both ends, the code points [str.isspace] holds
    of: U+0009 to U+000D, U+001C to U+0020, U+0085, U+00A0, U+1680, U+2000
    to U+200A, U+2028, U+2029, U+202F, U+205F and U+3000.  [str.lower] is
    the lowering of the letters A to Z: a text with any other letter is no
    word of [BOOLEANS_TRUE] or [BOOLEANS_FALSE], lowered or not (the two
    code points outside ASCII that lower into ASCII give [k] and [i], which
    no word has).  The failure message is cut after its first sentence; the
    rest lists the members of a set, in no fixed order. *)

Definition ascii_lower (c : ascii) : ascii :=
  let n := nat_of_ascii c in
  if ((65 <=? n) && (n <=? 90))%nat then ascii_of_nat (n + 32) else c.

Fixpoint lower (s : string) : string :=
  match s with
  | EmptyString => EmptyString
  | String c s' => String (ascii_lower c) (lower s')
  end.

(** White space of one byte: U+0009 to U+000D and U+001C to U+0020. *)
Definition is_space (c : ascii) : bool :=
  let n := nat_of_ascii c in
  (((9 <=? n) && (n <=? 13)) || ((28 <=? n) && (n <=? 32)))%nat.

(** White space of two bytes: U+0085 and U+00A0. *)
Definition is_space2 (c1 c2 : ascii) : bool :=
  let n1 := nat_of_ascii c1 in
  let n2 := nat_of_ascii c2 in
  ((n1 =? 194) && ((n2 =? 133) || (n2 =? 160)))%nat.

(** White space of three bytes: U+1680, U+2000 to U+200A, U+2028, U+2029,
    U+202F, U+205F and U+3000. *)
Definition is_space3 (c1 c2 c3 : ascii) : bool :=
  let n1 := nat_of_ascii c1 in
  let n2 := nat_of_ascii c2 in
  let n3 := nat_of_ascii c3 in
  (((n1 =? 225) && (n2 =? 154) && (n3 =? 128))
   || ((n1 =? 226) && (n2 =? 128)
       && (((128 <=? n3) && (n3 <=? 138))
           || (n3 =? 168) || (n3 =? 169) || (n3 =? 175)))
   || ((n1 =? 226) && (n2 =? 129) && (n3 =? 159))
   || ((n1 =? 227) && (n2 =? 128) && (n3 =? 128)))%nat.

(** [s] without the white space it starts with; [sp2] and [sp3] tell the
    white space of two and of three bytes. *)
Fixpoint lstrip_with (sp2 : ascii → ascii → bool)
    (sp3 : ascii → ascii → ascii → bool) (s : string) : string :=
  match s with
  | EmptyString => EmptyString
  | String c1 s1 =>
      if is_space c1 then lstrip_with sp2 sp3 s1
      else
        match s1 with
        | EmptyString => s
        | String c2 s2 =>
            if sp2 c1 c2 then lstrip_with sp2 sp3 s2
            else
              match s2 with
              | EmptyString => s
              | String c3 s3 =>
                  if sp3 c1 c2 c3 then lstrip_with sp2 sp3 s3 else s
              end
        end
  end.

Definition lstrip (s : string) : string := lstrip_with is_space2 is_space3 s.

(** The white space at the end is the white space the reversed string
    starts with, its bytes in reverse order. *)
Definition strip (s : string) : string :=
  String.rev
    (lstrip_with (λ c2 c1, is_space2 c1 c2) (λ c3 c2 c1, is_space3 c1 c2 c3)
       (String.rev (lstrip s))).

Definition BOOLEANS_TRUE : list string :=
  ["y"; "yes"; "on"; "1"; "true"; "t"].

Definition BOOLEANS_FALSE : list string :=
  ["n"; "no"; "off"; "0"; "false"; "f"].

Definition ansible_boolean (arg : option string) : string + option bool :=
  match arg with
  | None => inr None
  | Some value =>
      let normalized_value := strip (lower value) in
      if bool_decide (normalized_value ∈ BOOLEANS_TRUE) then inr (Some true)
      else if bool_decide (normalized_value ∈ BOOLEANS_FALSE)
      then inr (Some false)
      else inl ("The value '" +:+ value +:+ "' is not a valid boolean.")
  end.

(** ** A storage service to run the module against

    An unversioned store with strongly consistent reads, and four switches
    for the faults the module has to cope with. *)

Record s3_object : Type := S3Object {
  so_body : string;
  so_etag : string;
  so_mtime : Z;
  so_tags : tags_dict
}.

Record fake_s3 : Type := FakeS3 {
  fs_buckets : gmap string (gmap string s3_object);
  (** head calls are answered 403 *)
  fs_head_forbidden : bool;
  (** reads through a client without signature version 4 are refused *)
  fs_sig_4_only : bool;
  (** tag writes are accepted and never shown *)
  fs_tags_lag : bool;
  (** the faults of the coming [download_file] calls *)
  fs_download_faults : list boto_exn
}.

Definition with_buckets (f : gmap string (gmap string s3_object) →
                             gmap string (gmap string s3_object))
    (s : fake_s3) : fake_s3 :=
  FakeS3 (f (fs_buckets s)) (fs_head_forbidden s) (fs_sig_4_only s)
    (fs_tags_lag s) (fs_download_faults s).

Definition not_found : boto_exn := ClientError "404" "Not Found".

Definition sig_4_fault : boto_exn :=
  ClientError "InvalidArgument"
    "Requests specifying Server Side Encryption with AWS KMS managed keys require AWS Signature Version 4.".

(** The object a call names, or the fault of looking it up. *)
Definition find_object (missing : boto_exn) (s : fake_s3) (b : string)
    (k v : option string) : boto_exn + s3_object :=
  match k, v with
  | None, _ => inl (BotoCoreError "ParamValidationError")
  | Some _, Some _ => inl missing
  | Some key, None =>
      match fs_buckets s !! b with
      | None => inl missing
      | Some objs =>
          match objs !! key with
          | None => inl missing
          | Some o => inr o
          end
      end
  end.

Definition store_object (s : fake_s3) (b : string) (k : option string)
    (o : s3_object) : fake_s3 * (boto_exn + unit) :=
  match k, fs_buckets s !! b with
  | None, _ => (s, inl (BotoCoreError "ParamValidationError"))
  | Some _, None =>
      (s, inl (ClientError "NoSuchBucket"
                 "The specified bucket does not exist"))
  | Some key, Some objs =>
      (with_buckets (λ m, <[b := <[key := o]> objs]> m) s, inr tt)
  end.

Definition fresh_object (body : string) : s3_object :=
  S3Object body (dquote +:+ body +:+ dquote) 0 ∅.

Definition set_tags (t : tags_dict) (o : s3_object) : s3_object :=
  S3Object (so_body o) (so_etag o) (so_mtime o) t.

Definition fake_respond (s : fake_s3) (s3 : conn) (c : api_call)
  : fake_s3 * (boto_exn + reply c) :=
  match c return fake_s3 * (boto_exn + reply c) with
  | HeadObject b k v =>
      if fs_head_forbidden s then (s, inl (ClientError "403" "Forbidden"))
      else
        match find_object not_found s b k v with
        | inl e => (s, inl e)
        | inr o => (s, inr (Some (HeadInfo (so_etag o) (so_mtime o))))
        end
  | HeadBucket b =>
      if fs_head_forbidden s then (s, inl (ClientError "403" "Forbidden"))
      else
        match fs_buckets s !! b with
        | None => (s, inl not_found)
        | Some _ => (s, inr tt)
        end
  | CreateBucket b _ =>
      match fs_buckets s !! b with
      | Some _ =>
          (s, inl (ClientError "BucketAlreadyOwnedByYou"
                     "Your previous request to create the named bucket succeeded and you already own it."))
      | None => (with_buckets (λ m, <[b := ∅]> m) s, inr tt)
      end
  | WaitBucketExists _ | PutBucketAcl _ _ | PutObjectAcl _ _ _ =>
      (s, inr tt)
  | GetBucketOwnershipControls _ =>
      (s, inl (ClientError "OwnershipControlsNotFoundError"
                 "The bucket ownership controls were not found"))
  | ListObjectVersions b =>
      match fs_buckets s !! b with
      | None =>
          (s, inl (ClientError "NoSuchBucket"
                     "The specified bucket does not exist"))
      | Some objs =>
          (s, inr ([VersionsPage []
                      (map (λ kv, (kv.1, "null")) (map_to_list objs))],
                   None))
      end
  | ListObjectsV2 b _ _ _ =>
      match fs_buckets s !! b with
      | None =>
          (s, inl (ClientError "NoSuchBucket"
                     "The specified bucket does not exist"))
      | Some objs => (s, inr ([map fst (map_to_list objs)], None))
      end
  | DeleteObjects b objects =>
      match fs_buckets s !! b with
      | None =>
          (s, inl (ClientError "NoSuchBucket"
                     "The specified bucket does not exist"))
      | Some objs =>
          (with_buckets
             (λ m, <[b := foldr (λ oi, delete (oi_Key oi)) objs objects]> m)
             s,
           inr tt)
      end
  | DeleteBucket b =>
      match fs_buckets s !! b with
      | None =>
          (s, inl (ClientError "NoSuchBucket"
                     "The specified bucket does not exist"))
      | Some objs =>
          if bool_decide (objs = ∅) then
            (with_buckets (delete b) s, inr tt)
          else
            (s, inl (ClientError "BucketNotEmpty"
                       "The bucket you tried to delete is not empty"))
      end
  | DeleteObject b k =>
      match k, fs_buckets s !! b with
      | Some key, Some objs =>
          (with_buckets (λ m, <[b := delete key objs]> m) s, inr tt)
      | _, _ =>
          (s, inl (ClientError "NoSuchBucket"
                     "The specified bucket does not exist"))
      end
  | PutObject b k body => store_object s b k (fresh_object body)
  | UploadFile f b k => store_object s b k (fresh_object f)
  | UploadFileobj body b k =>
      store_object s b k (fresh_object (default EmptyString body))
  | GetObject b k v =>
      if fs_sig_4_only s && negb (conn_sig_4 s3) then (s, inl sig_4_fault)
      else
        match find_object (ClientError "NoSuchKey"
                             "The specified key does not exist.") s b k v with
        | inl e => (s, inl e)
        | inr o => (s, inr (so_body o))
        end
  | DownloadFile b k _ v =>
      match fs_download_faults s with
      | e :: faults =>
          (FakeS3 (fs_buckets s) (fs_head_forbidden s) (fs_sig_4_only s)
             (fs_tags_lag s) faults,
           inl e)
      | [] =>
          match find_object not_found s b k v with
          | inl e => (s, inl e)
          | inr _ => (s, inr tt)
          end
      end
  | CopyObject b k src =>
      match find_object (ClientError "NoSuchKey"
                           "The specified key does not exist.") s
              (cs_Bucket src) (Some (cs_Key src)) (cs_VersionId src) with
      | inl e => (s, inl e)
      | inr o => store_object s b k (set_tags ∅ o)
      end
  | GeneratePresignedUrl method b k expiry =>
      (s, inr ("https://" +:+ b +:+ ".s3.amazonaws.com/" +:+ py_str k
               +:+ "?method=" +:+ method))
  | GetObjectTagging b k v =>
      match find_object (ClientError "NoSuchKey"
                           "The specified key does not exist.") s b k v with
      | inl e => (s, inl e)
      | inr o => (s, inr (so_tags o))
      end
  | PutObjectTagging b k tags =>
      match find_object (ClientError "NoSuchKey"
                           "The specified key does not exist.") s b k None with
      | inl e => (s, inl e)
      | inr o =>
          if fs_tags_lag s then (s, inr tt)
          else store_object s b k (set_tags tags o)
      end
  | DeleteObjectTagging b k =>
      match find_object (ClientError "NoSuchKey"
                           "The specified key does not exist.") s b k None with
      | inl e => (s, inl e)
      | inr o =>
          if fs_tags_lag s then (s, inr tt)
          else store_object s b k (set_tags ∅ o)
      end
  end.

(** ** Requests and hosts to run the module on *)

(** [module.params] with the defaults of [argument_spec]. *)
Definition default_params (bucket : string) (m : mode) (object : option string)
  : params :=
  Params bucket None true "AES256" 600 None EmptyString 1000 None m true
    object ["private"] None (Some "different") EmptyString 0 false false
    None None None false None None true None true None.

Definition set_tags_param (tags : option tags_dict) (purge_tags : bool)
    (p : params) : params :=
  Params (p_bucket p) (p_dest p) (p_encrypt p) (p_encryption_mode p)
    (p_expiry p) (p_headers p) (p_marker p) (p_max_keys p) (p_metadata p)
    (p_mode p) (p_sig_v4 p) (p_object p) (p_permission p) (p_version p)
    (p_overwrite p) (p_prefix p) (p_retries p) (p_dualstack p) (p_ceph p)
    (p_src p) (p_content p) (p_content_base64 p)
    (p_ignore_nonexistent_bucket p) (p_encryption_kms_key_id p) tags
    purge_tags (p_copy_src p) (p_validate_bucket_name p) (p_endpoint_url p).

Definition set_content (content : option string) (p : params) : params :=
  Params (p_bucket p) (p_dest p) (p_encrypt p) (p_encryption_mode p)
    (p_expiry p) (p_headers p) (p_marker p) (p_max_keys p) (p_metadata p)
    (p_mode p) (p_sig_v4 p) (p_object p) (p_permission p) (p_version p)
    (p_overwrite p) (p_prefix p) (p_retries p) (p_dualstack p) (p_ceph p)
    (p_src p) content (p_content_base64 p)
    (p_ignore_nonexistent_bucket p) (p_encryption_kms_key_id p) (p_tags p)
    (p_purge_tags p) (p_copy_src p) (p_validate_bucket_name p)
    (p_endpoint_url p).

Definition set_dest (dest : option string) (retries : Z) (sig_v4 : bool)
    (p : params) : params :=
  Params (p_bucket p) dest (p_encrypt p) (p_encryption_mode p)
    (p_expiry p) (p_headers p) (p_marker p) (p_max_keys p) (p_metadata p)
    (p_mode p) sig_v4 (p_object p) (p_permission p) (p_version p)
    (p_overwrite p) (p_prefix p) retries (p_dualstack p) (p_ceph p)
    (p_src p) (p_content p) (p_content_base64 p)
    (p_ignore_nonexistent_bucket p) (p_encryption_kms_key_id p) (p_tags p)
    (p_purge_tags p) (p_copy_src p) (p_validate_bucket_name p)
    (p_endpoint_url p).

Definition set_ignore_nonexistent_bucket (b : bool) (p : params) : params :=
  Params (p_bucket p) (p_dest p) (p_encrypt p) (p_encryption_mode p)
    (p_expiry p) (p_headers p) (p_marker p) (p_max_keys p) (p_metadata p)
    (p_mode p) (p_sig_v4 p) (p_object p) (p_permission p) (p_version p)
    (p_overwrite p) (p_prefix p) (p_retries p) (p_dualstack p) (p_ceph p)
    (p_src p) (p_content p) (p_content_base64 p) b
    (p_encryption_kms_key_id p) (p_tags p) (p_purge_tags p) (p_copy_src p)
    (p_validate_bucket_name p) (p_endpoint_url p).

(** A host with MD5, no file of its own, and Ansible's Booleans; the
    fingerprint of a file or of a content is the ETag the store gives the
    same data. *)
Definition plain_host : host :=
  Host (λ _, false) (λ _, 0) id None (Some "eu-west-1") true
    (λ f _, Some (so_etag (fresh_object f)))
    (λ c _, Some (so_etag (fresh_object (default EmptyString c))))
    (λ _, None) ansible_boolean.

(** The same host with the files [paths]. *)
Definition host_with_files (paths : list string) : host :=
  Host (λ f, bool_decide (f ∈ paths)) (λ _, 0) id None (Some "eu-west-1")
    true
    (λ f _, Some (so_etag (fresh_object f)))
    (λ c _, Some (so_etag (fresh_object (default EmptyString c))))
    (λ _, None) ansible_boolean.

(** A store with the bucket [b] holding [objs], and no fault switched on. *)
Definition store_with (b : string) (objs : list (string * s3_object))
  : fake_s3 :=
  FakeS3 {[ b := list_to_map objs ]} false false false [].

Definition tagged (body : string) (tags : tags_dict) : s3_object :=
  set_tags tags (fresh_object body).

(** The tags of an object of the store. *)
Definition remote_tags (s : fake_s3) (b key : string) : option tags_dict :=
  objs ← fs_buckets s !! b; o ← objs !! key; Some (so_tags o).

(** The store without its fault switches: the state is the buckets. *)
Definition faultless (m : gmap string (gmap string s3_object)) : fake_s3 :=
  FakeS3 m false false false [].

Definition store_respond (m : gmap string (gmap string s3_object))
    (s3 : conn) (c : api_call)
  : gmap string (gmap string s3_object) * (boto_exn + reply c) :=
  let r := fake_respond (faultless m) s3 c in (fs_buckets r.1, r.2).

(** The client of the sample runs. *)
Definition aws : conn := Conn "eu-west-1" false None true.

(** The dict [s3_vars] of a request whose bucket was found, as
    [populate_facts] and [validate_bucket] leave it on [plain_host]. *)
Definition vars_of (p : params) : s3_vars :=
  S3Vars p "eu-west-1" (negb (p_ignore_nonexistent_bucket p)) false
    (Some (filter (λ acl, acl ∈ bucket_canned_acl) (p_permission p)))
    (Some (filter (λ acl, acl ∈ object_canned_acl) (p_permission p)))
    (Some true).

(** A module with another value of [overwrite]. *)
Definition with_overwrite (o : option string) (module : ansible_module)
  : ansible_module :=
  AnsibleModule (check_mode module) (set_overwrite o (module_params module)).

(** Sample requests on the bucket ["bkt"] and the key ["k"]. *)
Definition put_request (check : bool) (overwrite : string)
    (tags : option tags_dict) (purge_tags : bool) : ansible_module :=
  AnsibleModule check
    (set_tags_param tags purge_tags
       (set_content (Some "hello")
          (set_overwrite (Some overwrite)
             (default_params "bkt" mode_put (Some "k"))))).

Definition get_request (m : mode) (retries : Z) (sig_v4 : bool)
  : ansible_module :=
  AnsibleModule false
    (set_dest (Some "/tmp/k") retries sig_v4
       (default_params "bkt" m (Some "k"))).

Definition delete_request (check : bool) : ansible_module :=
  AnsibleModule check (default_params "x" mode_delete None).

(** The bucket ["bkt"] with the object ["k"], tagged [a=1]. *)
Definition sample_store : fake_s3 :=
  store_with "bkt" [("k", tagged "hello" {[ "a" := "1" ]})].

(** The bucket ["x"] with the keys ["p/1"] and ["p/2"]. *)
Definition bulk_store : fake_s3 :=
  store_with "x" [("p/1", fresh_object "one"); ("p/2", fresh_object "two")].

(** [sample_store] with one fault switched on. *)
Definition forbidden_store : fake_s3 :=
  FakeS3 (fs_buckets sample_store) true false false [].

Definition sig_4_store : fake_s3 :=
  FakeS3 (fs_buckets sample_store) false true false [].

Definition lagging_store : fake_s3 :=
  FakeS3 (fs_buckets sample_store) false false true [].

Definition flaky_store (faults : list boto_exn) : fake_s3 :=
  FakeS3 (fs_buckets sample_store) false false false faults.

Definition timeout_fault : boto_exn :=
  ClientError "RequestTimeout"
    "Your socket connection to the server was not read from or written to within the timeout period.".

(** ** Vocabulary of the properties *)

(** Calls that transfer the content of an object to the store. *)
Definition is_upload (ev : event) : bool :=
  match ev with
  | Api _ (UploadFile _ _ _) | Api _ (UploadFileobj _ _ _)
  | Api _ (PutObject _ _ _) | Api _ (CopyObject _ _ _) => true
  | _ => false
  end.

(** Calls that transfer an object to a local file. *)
Definition is_download (ev : event) : bool :=
  match ev with
  | Api _ (DownloadFile _ _ _ _) => true
  | _ => false
  end.

(** Calls that delete objects or a bucket. *)
Definition is_deletion (ev : event) : bool :=
  match ev with
  | Api _ (DeleteObjects _ _) | Api _ (DeleteBucket _)
  | Api _ (DeleteObject _ _) => true
  | _ => false
  end.

(** Calls that write tags. *)
Definition is_tag_write (ev : event) : bool :=
  match ev with
  | Api _ (PutObjectTagging _ _ _) | Api _ (DeleteObjectTagging _ _) => true
  | _ => false
  end.

(** Calls that change the remote state. *)
Definition is_mutation (ev : event) : bool :=
  match ev with
  | Api _ (CreateBucket _ _) | Api _ (PutBucketAcl _ _)
  | Api _ (PutObjectAcl _ _ _) | Api _ (DownloadFile _ _ _ _) => true
  | _ => is_upload ev || is_deletion ev || is_tag_write ev
  end.

(** The classes of the spec's taxonomy of faults (its section 7) that a
    fault of a call falls in.  Not-found and access-denied answers are
    classes of their own; "network/timeout-class faults", the "timeouts,
    generic backend errors" of section 4.3, are [TransientTransport]. *)
Inductive fault_class : Type :=
| NotFound
| Forbidden
| TransientTransport
| SignatureVersionRequired
| UnsupportedOperation
| LocalFault.

Definition fault_class_of (e : boto_exn) : fault_class :=
  match e with
  | ClientError code message =>
      if bool_decide (code ∈ ["404"; "NoSuchKey"; "NoSuchBucket";
                              "NoSuchVersion"]) then NotFound
      else if bool_decide (code ∈ ["403"; "AccessDenied"]) then Forbidden
      else if contains "require AWS Signature Version 4" message
      then SignatureVersionRequired
      else if bool_decide (code ∈ IGNORE_S3_DROP_IN_EXCEPTIONS)
      then UnsupportedOperation
      else TransientTransport
  | BotoCoreError _ | SSLError _ => TransientTransport
  | OSError _ => LocalFault
  end.

(** The spec's transient faults. *)
Definition is_transient (e : boto_exn) : bool :=
  match fault_class_of e with
  | TransientTransport => true
  | _ => false
  end.

(** The faults the [except] clauses of the transfer loop of
    [download_s3file] catch: a [ClientError] whatever its code, a
    [BotoCoreError], an [SSLError]. *)
Definition caught_by_transfer_loop (e : boto_exn) : bool :=
  match e with
  | ClientError _ _ | BotoCoreError _ | SSLError _ => true
  | OSError _ => false
  end.

(** The service answers the call [c], issued once for each fault of
    [faults] from the state [s] on, with these faults in turn, and is then
    in the state [s']. *)
Fixpoint failed_attempts {St : Type}
    (respond : St → conn → ∀ c : api_call, St * (boto_exn + reply c))
    (s3 : conn) (c : api_call) (faults : list boto_exn) (s s' : St) : Prop :=
  match faults with
  | [] => s = s'
  | e :: faults =>
      ∃ s1, respond s s3 c = (s1, inl e) ∧
            failed_attempts respond s3 c faults s1 s'
  end.

(** Whether a result is an exit that reports [changed=True]. *)
Definition reports_changed (r : module_result) : bool :=
  match r with
  | ExitJson kw => default false (ek_changed kw)
  | FailJson _ => false
  end.

(** Whether a result is an exit that reports no change: the module has not
    failed, and [changed] is [False] or left out (Ansible reads a result
    without [changed] as unchanged). *)
Definition reports_no_change (r : module_result) : bool :=
  match r with
  | ExitJson kw =>
      negb (default false (ek_changed kw))
      && negb (default false (ek_failed kw))
  | FailJson _ => false
  end.

(** The policies the module compares [overwrite] with. *)
Definition overwrite_policies : list (option string) :=
  [Some "always"; Some "never"; Some "different"; Some "latest"].

(** The calls of a trace, without the client that issued them. *)
Definition calls_of (t : list event) : list api_call :=
  omap (λ ev, match ev with Api _ c => Some c | _ => None end) t.

(** Every event a computation leaves satisfies [P], whatever the state it
    starts in. *)
Definition traced {St A : Type} (P : event → bool) (m : M (St:=St) A) : Prop :=
  ∀ s, forallb P (trace (m s)) = true.

(** An existence probe, at the level of a key or of a bucket. *)
Inductive probe : Type :=
| KeyProbe (bucket : string) (obj version : option string)
| BucketProbe (bucket : string).

Definition probe_call (p : probe) : api_call :=
  match p with
  | KeyProbe bucket obj version => HeadObject bucket obj (version_kw version)
  | BucketProbe bucket => HeadBucket bucket
  end.

Definition probe_message (p : probe) : string :=
  match p with
  | KeyProbe _ obj _ =>
      "Failed while looking up object (during key check) " +:+ py_str obj
      +:+ "."
  | BucketProbe bucket =>
      "Failed while looking up bucket (during bucket_check) " +:+ bucket
      +:+ "."
  end.

Definition run_probe {St : Type}
    (respond : St → conn → ∀ c : api_call, St * (boto_exn + reply c))
    (module : ansible_module) (s3 : conn) (p : probe) (validate : bool)
  : M bool :=
  match p with
  | KeyProbe bucket obj version =>
      key_check respond module s3 bucket obj version validate
  | BucketProbe bucket => bucket_check respond module s3 bucket validate
  end.

(** How many times a trace attempts the file transfer of a download. *)
Definition downloads (t : list event) : nat :=
  length (List.filter is_download t).

(** What [download_s3file] raises for a fault [e] of its last attempt. *)
Definition download_failure (obj : option string) (e : boto_exn) : exn :=
  if is_botocore_error e then
    S3ObjectFailure ("Failed while downloading " +:+ py_str obj +:+ ".")
      (Some e)
  else SystemExit (FailJson (FailKwargs "s3 download failed" (Some e)
                               None None)).

(** A run with one more event in front. *)
Definition after_event {St A : Type} (ev : event) (r : run (St:=St) A)
  : run (St:=St) A :=
  Run (outcome r) (final r) (ev :: trace r).

(** Every exception a computation raises satisfies [Q]. *)
Definition raises {St A : Type} (Q : exn → Prop) (m : M (St:=St) A) : Prop :=
  ∀ s e, outcome (m s) = inl e → Q e.

(** Exceptions that do not end the module with a change reported. *)
Definition no_change_reported (e : exn) : Prop :=
  ∀ res, e = SystemExit res → reports_changed res = false.

(** A run that ends the module without a deletion call, with an exit that
    reports no change. *)
Definition unchanged_without_deletion {St : Type} (r : run (St:=St) unit)
  : Prop :=
  forallb (λ ev, negb (is_deletion ev)) (trace r) = true ∧
  ∃ res, outcome r = inl (SystemExit res) ∧ reports_no_change res = true.

(** The service shows a bucket it has deleted as not found. *)
Definition deleted_bucket_is_absent {St : Type}
    (respond : St → conn → ∀ c : api_call, St * (boto_exn + reply c))
    (s3 : conn) (bucket : string) : Prop :=
  ∀ s0 s1, respond s0 s3 (DeleteBucket bucket) = (s1, inr tt) →
    ∃ s2 message,
      respond s1 s3 (HeadBucket bucket)
      = (s2, inl (ClientError "404" message)).

(** The delete operation is idempotent: on a bucket that is not there it
    deletes nothing and reports no change, and so does a second delete
    after a delete that reported a change. *)
Definition delete_idempotent {St : Type}
    (respond : St → conn → ∀ c : api_call, St * (boto_exn + reply c))
    (h : host) (module : ansible_module) (s3 : conn) (vars : s3_vars)
  : Prop :=
  (∀ s s' message,
     respond s s3 (HeadBucket (p_bucket (v_params vars)))
     = (s', inl (ClientError "404" message)) →
     unchanged_without_deletion (main_dispatch respond h module s3 vars s)) ∧
  (∀ s res,
     outcome (main_dispatch respond h module s3 vars s)
     = inl (SystemExit res) →
     reports_changed res = true →
     unchanged_without_deletion
       (main_dispatch respond h module s3 vars
          (final (main_dispatch respond h module s3 vars s)))).

(** The claim that a fault that is not transient is not retried: a download
    whose first attempt of the transfer meets such a fault does not attempt
    the transfer again. *)
Definition only_transient_retried {St : Type}
    (respond : St → conn → ∀ c : api_call, St * (boto_exn + reply c))
    (module : ansible_module) (s3 : conn) (bucket : string)
    (obj dest : option string) (retries : Z) (version : option string)
  : Prop :=
  ∀ s s1 s2 (body : string) e,
    respond s s3 (GetObject bucket obj (version_kw version))
    = (s1, inr body) →
    respond s1 s3 (DownloadFile bucket obj dest (version_kw version))
    = (s2, inl e) →
    is_transient e = false →
    (downloads (trace (download_s3file respond module s3 bucket obj dest
                         retries version s)) ≤ 1)%nat.


(** The service shows tags other than [expected] to [k] reads in a row,
    from the state [s] on, and is then in the state [s']. *)
Fixpoint stale_reads {St : Type}
    (respond : St → conn → ∀ c : api_call, St * (boto_exn + reply c))
    (s3 : conn) (bucket : string) (obj version : option string)
    (expected : tags_dict) (k : nat) (s s' : St) : Prop :=
  match k with
  | O => s = s'
  | S k =>
      ∃ s1 (t : tags_dict),
        respond s s3 (GetObjectTagging bucket obj version) = (s1, inr t) ∧
        t ≠ expected ∧
        stale_reads respond s3 bucket obj version expected k s1 s'
  end.

(** The call that writes the tags [target]: a full replace, or the deletion
    of all tags when [target] is empty. *)
Definition tag_write (bucket : string) (obj : option string)
    (target : tags_dict) : api_call :=
  if bool_decide (target ≠ ∅) then PutObjectTagging bucket obj target
  else DeleteObjectTagging bucket obj.

(** The service accepts the write of the tags [target] in the state [s] and
    is then in the state [s']. *)
Definition tag_write_accepted {St : Type}
    (respond : St → conn → ∀ c : api_call, St * (boto_exn + reply c))
    (s3 : conn) (bucket : string) (obj : option string) (target : tags_dict)
    (s s' : St) : Prop :=
  if bool_decide (target ≠ ∅)
  then respond s s3 (PutObjectTagging bucket obj target) = (s', inr tt)
  else respond s s3 (DeleteObjectTagging bucket obj) = (s', inr tt).

(** The reads of a convergence loop that succeeds after [k] stale reads. *)
Definition convergence_reads (s3 : conn) (bucket : string)
    (obj version : option string) (k : nat) : list event :=
  (concat (replicate k [Api s3 (GetObjectTagging bucket obj version);
                        Sleep 5])
   ++ [Api s3 (GetObjectTagging bucket obj version)])%list.

(** The deprecation notice [delete_bucket] starts with. *)
Definition delete_deprecation : event :=
  Deprecate "Support for deleting S3 buckets using the s3_object module has been deprecated.  Please use the ``s3_bucket`` module instead.".

(** The exit of a run that ends with [exit_json(failed=False)]. *)
Definition exit_not_failed : exn :=
  SystemExit (ExitJson (ExitKwargs None None None None None None None
                          (Some false))).

(** The claim that a value of [overwrite] outside the four policies is
    never rejected: whenever a request is accepted, it is also accepted
    with any such value, and [overwrite] then is [always] or [never]. *)
Definition overwrite_never_rejected {St : Type} (h : host)
    (module : ansible_module) (s : St) : Prop :=
  ∀ o, o ∉ overwrite_policies →
    (∃ v, outcome (populate_facts h module s) = inr v) →
    ∃ v', outcome (populate_facts h (with_overwrite o module) s) = inr v' ∧
          p_overwrite (v_params v') ∈ [Some "always"; Some "never"].

(** * Properties *)

Section Proofs.
Context {St : Type}.
Variable respond : St → conn → ∀ c : api_call, St * (boto_exn + reply c).
Variable h : host.

Local Abbreviation Mst := (@M St).

Lemma bind_run {A B : Type} (m : Mst A) (f : A → Mst B) (s : St) :
  (m ≫= f) s =
  match outcome (m s) with
  | inl e => Run (inl e) (final (m s)) (trace (m s))
  | inr a =>
      Run (outcome (f a (final (m s)))) (final (f a (final (m s))))
        (trace (m s) ++ trace (f a (final (m s))))
  end.
Proof. reflexivity. Qed.

Lemma try_except_run {A : Type} (m : Mst A) (hd : exn → option (Mst A)) (s : St) :
  try_except m hd s =
  match outcome (m s) with
  | inr _ => m s
  | inl e =>
      match hd e with
      | None => m s
      | Some k =>
          Run (outcome (k (final (m s)))) (final (k (final (m s))))
            (trace (m s) ++ trace (k (final (m s))))
      end
  end.
Proof. reflexivity. Qed.

Lemma call_run s3 c s s' r :
  respond s s3 c = (s', r) →
  call respond s3 c s =
  Run (match r with inl e => inl (Boto e) | inr v => inr v end) s' [Api s3 c].
Proof. intros H. unfold call. rewrite H. reflexivity. Qed.


(** *** Events of a computation *)

Lemma traced_ret {A : Type} P (a : A) : traced (St:=St) P (mret a).
Proof. intros s. reflexivity. Qed.

Lemma traced_raise {A : Type} P e : traced (St:=St) P (raise (A:=A) e).
Proof. intros s. reflexivity. Qed.

Lemma traced_emit P ev : P ev = true → traced (St:=St) P (emit ev).
Proof. intros H s. cbn. by rewrite H. Qed.

Lemma traced_call P s3 c : P (Api s3 c) = true → traced P (call respond s3 c).
Proof. intros H s. cbn. by rewrite H. Qed.

Lemma traced_bind {A B : Type} P (m : Mst A) (f : A → Mst B) :
  traced P m → (∀ a, traced P (f a)) → traced P (m ≫= f).
Proof.
  intros Hm Hf s. rewrite bind_run. specialize (Hm s).
  destruct (outcome (m s)); cbn [trace]; [done|].
  rewrite forallb_app, Hm. apply Hf.
Qed.

Lemma traced_try {A : Type} P (m : Mst A) (hd : exn → option (Mst A)) :
  traced P m → (∀ e k, hd e = Some k → traced P k) →
  traced P (try_except m hd).
Proof.
  intros Hm Hh s. rewrite try_except_run. specialize (Hm s).
  destruct (outcome (m s)) as [e|]; [|done].
  destruct (hd e) as [k|] eqn:Hk; [|done].
  cbn [trace]. rewrite forallb_app, Hm. by apply (Hh e).
Qed.

Lemma traced_on_boto {A : Type} P (f : boto_exn → option (Mst A)) :
  (∀ b k, f b = Some k → traced P k) →
  ∀ e k, on_boto f e = Some k → traced P k.
Proof. intros Hf [] k H; try done. by apply (Hf e). Qed.

Lemma traced_wrap_failure {A : Type} P msg b (k : Mst A) :
  wrap_failure msg b = Some k → traced P k.
Proof.
  unfold wrap_failure. destruct (is_botocore_error b); [|done].
  intros [= <-]. apply traced_raise.
Qed.

Lemma traced_for_each {A : Type} P (l : list A) (body : A → Mst unit) :
  (∀ x, traced P (body x)) → traced P (for_each l body).
Proof.
  intros H. induction l as [|x l IH]; cbn [for_each].
  - apply traced_ret.
  - apply traced_bind; [apply H | intros _; apply IH].
Qed.

Lemma traced_exit_json {A : Type} P kw : traced (St:=St) P (exit_json (A:=A) kw).
Proof. apply traced_raise. Qed.

Lemma traced_fail_json {A : Type} P msg : traced (St:=St) P (fail_json (A:=A) msg).
Proof. apply traced_raise. Qed.

Lemma traced_fail_json_aws {A : Type} P e msg :
  traced (St:=St) P (fail_json_aws (A:=A) e msg).
Proof. apply traced_raise. Qed.

Lemma traced_check_mode_exit P module msg :
  traced (St:=St) P (check_mode_exit module msg).
Proof.
  unfold check_mode_exit. destruct (check_mode module);
    [apply traced_raise | apply traced_ret].
Qed.

Lemma traced_getitem {A : Type} P key (o : option A) :
  traced (St:=St) P (getitem key o).
Proof. destruct o; [apply traced_ret | apply traced_raise]. Qed.

(** One step of a proof that a computation only leaves events of a kind. *)
Ltac traced_step :=
  match goal with
  | |- traced _ (mret _) => apply traced_ret
  | |- traced _ (raise _) => apply traced_raise
  | |- traced _ (exit_json _) => apply traced_raise
  | |- traced _ (fail_json _) => apply traced_raise
  | |- traced _ (fail_json_aws _ _) => apply traced_raise
  | |- traced _ (check_mode_exit _ _) => apply traced_check_mode_exit
  | |- traced _ (getitem _ _) => apply traced_getitem
  | |- traced _ (emit _) => apply traced_emit; reflexivity
  | |- traced _ (call _ _ _) => apply traced_call; reflexivity
  | |- traced _ (_ ≫= _) => apply traced_bind; [|intros ?]
  | |- traced _ (try_except _ _) => apply traced_try
  | |- traced _ (for_each _ _) => apply traced_for_each; intros ?
  | |- ∀ e k, on_boto _ e = Some k → traced _ k =>
      apply traced_on_boto; intros ? ?
  | |- wrap_failure _ _ = Some _ → traced _ _ => apply traced_wrap_failure
  | |- Some _ = Some _ → traced _ _ => intros [= <-]
  | |- None = Some _ → traced _ _ => intros [=]
  | |- (if ?b then _ else _) = Some _ → traced _ _ => destruct b
  | |- match ?x with _ => _ end = Some _ → traced _ _ => destruct x
  | |- traced _ (if ?b then _ else _) => destruct b
  | |- traced _ (match ?x with _ => _ end) => destruct x
  | |- traced _ (let _ := _ in _) => cbv zeta
  end.

Ltac traced_auto := repeat traced_step.

Lemma bind_run_ok {A B : Type} (m : Mst A) (f : A → Mst B) s a s1 t1 :
  m s = Run (inr a) s1 t1 →
  (m ≫= f) s =
  Run (outcome (f a s1)) (final (f a s1)) (t1 ++ trace (f a s1)).
Proof. intros H. rewrite bind_run, H. reflexivity. Qed.

Lemma bind_run_err {A B : Type} (m : Mst A) (f : A → Mst B) s e s1 t1 :
  m s = Run (inl e) s1 t1 → (m ≫= f) s = Run (inl e) s1 t1.
Proof. intros H. rewrite bind_run, H. reflexivity. Qed.

Lemma try_except_run_ok {A : Type} (m : Mst A) hd s a s1 t1 :
  m s = Run (inr a) s1 t1 → try_except m hd s = Run (inr a) s1 t1.
Proof. intros H. rewrite try_except_run, H. reflexivity. Qed.

Lemma run_eta {A : Type} (r : run (St:=St) A) :
  Run (outcome r) (final r) (trace r) = r.
Proof. by destruct r. Qed.

Lemma ret_bind_run {A B : Type} (a : A) (f : A → Mst B) s :
  (mret a ≫= f) s = f a s.
Proof. rewrite bind_run. cbn. apply run_eta. Qed.

Lemma calls_of_api s3 c t : calls_of (Api s3 c :: t) = c :: calls_of t.
Proof. reflexivity. Qed.

Lemma calls_of_other ev t :
  (∀ s3 c, ev ≠ Api s3 c) → calls_of (ev :: t) = calls_of t.
Proof. intros H. destruct ev; try reflexivity. by destruct (H s3 c). Qed.

Lemma calls_of_app t1 t2 :
  calls_of (t1 ++ t2) = (calls_of t1 ++ calls_of t2)%list.
Proof. apply omap_app. Qed.

Section Wait.
Variables (module : ansible_module) (s3 : conn) (bucket : string) (obj : option string) (expected : tags_dict) (version : option string).
Let c := GetObjectTagging bucket obj (version_kw version).

Lemma wait_loop_step n last s s' (r : boto_exn + tags_dict) :
  respond s s3 c = (s', r) →
  wait_tags_loop respond (S n) last module s3 bucket obj expected version s =
  match r with
  | inl e =>
      Run (inl (if is_botocore_error e
                then S3ObjectFailure "Failed to get object tags." (Some e)
                else Boto e)) s' [Api s3 c]
  | inr t =>
      if bool_decide (t ≠ expected) then
        let r' := wait_tags_loop respond n (Some t) module s3 bucket obj expected version s' in
        Run (outcome r') (final r') (Api s3 c :: Sleep 5 :: trace r')
      else Run (inr t) s' [Api s3 c]
  end.
Proof.
  intros H. unfold c in *. cbn [wait_tags_loop]. unfold get_current_object_tags_dict.
  rewrite bind_run, try_except_run, (call_run _ _ _ _ _ H).
  destruct r as [e|t]; cbn [outcome final trace on_boto].
  - unfold wrap_failure. destruct (is_botocore_error e); reflexivity.
  - destruct (bool_decide (t ≠ expected)); [|reflexivity].
    rewrite bind_run. reflexivity.
Qed.

Let observe (s : St) : St := (respond s s3 c).1.

(** However the service answers, the loop fetches the tags at most [n]
    times. *)
Lemma wait_loop_fetches_le n : ∀ last s,
  (length (calls_of (trace (wait_tags_loop respond n last module s3 bucket
                              obj expected version s))) ≤ n)%nat.
Proof.
  induction n as [|n IH]; intros last s; [cbn; lia|].
  destruct (respond s s3 c) as [s' r] eqn:H.
  rewrite (wait_loop_step _ _ _ _ _ H).
  destruct r as [e|t]; [cbn; lia|].
  case_bool_decide; [|cbn; lia].
  cbn [outcome final trace]. rewrite calls_of_api, calls_of_other by done.
  cbn [length]. apply le_n_S, IH.
Qed.

Lemma wait_loop_never (Inv : St → Prop) n :
  (∀ s, Inv s →
        ∃ s' (t : tags_dict),
          respond s s3 c = (s', inr t) ∧ t ≠ expected ∧ Inv s') →
  ∀ last s, Inv s →
  let r := wait_tags_loop respond (S n) last module s3 bucket obj expected
             version s in
  trace r = concat (replicate (S n) [Api s3 c; Sleep 5]) ∧
  final r = Nat.iter (S n) observe s ∧
  ∃ live : tags_dict,
    respond (Nat.iter n observe s) s3 c
      = (Nat.iter (S n) observe s, inr live) ∧
    live ≠ expected ∧
    outcome r =
      inl (SystemExit (FailJson (FailKwargs
             "Object tags failed to apply in the expected time." None
             (Some expected) (Some live)))).
Proof.
  intros Hne. induction n as [|n IH]; intros last s Hs.
  - destruct (Hne s Hs) as (s' & t & H & Ht & _).
    cbv zeta. rewrite (wait_loop_step _ _ _ _ _ H), bool_decide_true by done.
    cbn. unfold observe. rewrite H. cbn. eauto 10.
  - destruct (Hne s Hs) as (s' & t & H & Ht & Hs').
    cbv zeta. rewrite (wait_loop_step _ _ _ _ _ H), bool_decide_true by done.
    destruct (IH (Some t) s' Hs') as (Htr & Hfin & live & Hlive & Hl & Hout).
    cbv zeta. cbn [outcome final trace]. rewrite Htr, Hfin, Hout.
    assert (Heq : s' = observe s) by (unfold observe; rewrite H; done).
    rewrite (Nat.iter_succ_r (S n) _ observe s), (Nat.iter_succ_r n _ observe s).
    rewrite <- Heq. eauto 10.
Qed.

Lemma traced_wait_tags_loop P n last :
  P (Api s3 c) = true → P (Sleep 5) = true →
  traced P (wait_tags_loop respond n last module s3 bucket obj expected version).
Proof.
  intros Hc Hs. revert last. induction n as [|n IH]; intros last; cbn [wait_tags_loop].
  - apply traced_raise.
  - unfold get_current_object_tags_dict. 
    apply traced_bind; [|intros t].
    + apply traced_try; [by apply traced_call|]. traced_auto.
    + destruct (bool_decide _); [|apply traced_ret].
      apply traced_bind; [by apply traced_emit|]. intros _. apply IH.
Qed.

Lemma wait_loop_result n : ∀ last s t,
  outcome (wait_tags_loop respond n last module s3 bucket obj expected version s) = inr t →
  t = expected.
Proof.
  induction n as [|n IH]; intros last s t; [done|].
  destruct (respond s s3 c) as [s' r] eqn:H.
  rewrite (wait_loop_step _ _ _ _ _ H).
  destruct r as [e|t']; [done|].
  case_bool_decide as Ht.
  - cbn [outcome]. apply IH.
  - cbn [outcome]. intros [= <-]. by destruct (decide (t' = expected)).
Qed.

(** The loop returns at the first read that shows the expected tags, if it
    is among its [n] reads. *)
Lemma wait_loop_converges n : ∀ k last s s1 s2,
  (k < n)%nat →
  stale_reads respond s3 bucket obj (version_kw version) expected k s s1 →
  respond s1 s3 c = (s2, inr expected) →
  wait_tags_loop respond n last module s3 bucket obj expected version s =
  Run (inr expected) s2
    (convergence_reads s3 bucket obj (version_kw version) k).
Proof.
  induction n as [|n IH]; intros k last s s1 s2 Hk Hst H; [lia|].
  destruct k as [|k]; cbn [stale_reads] in Hst.
  - subst s1. rewrite (wait_loop_step _ _ _ _ _ H).
    rewrite bool_decide_false by (intros Hne; by apply Hne). reflexivity.
  - destruct Hst as (s' & t & Hr & Hne & Hst).
    rewrite (wait_loop_step _ _ _ _ _ Hr), bool_decide_true by done.
    cbv zeta. rewrite (IH k (Some t) s' s1 s2) by (lia || done).
    reflexivity.
Qed.

(** A loop that returns has read the tags it returns, after stale reads
    only. *)
Lemma wait_loop_converged n : ∀ last s t,
  outcome (wait_tags_loop respond n last module s3 bucket obj expected
             version s) = inr t →
  ∃ k s1,
    (k < n)%nat ∧
    stale_reads respond s3 bucket obj (version_kw version) expected k s s1 ∧
    respond s1 s3 c
    = (final (wait_tags_loop respond n last module s3 bucket obj expected
                version s), inr t) ∧
    trace (wait_tags_loop respond n last module s3 bucket obj expected
             version s)
    = convergence_reads s3 bucket obj (version_kw version) k.
Proof.
  induction n as [|n IH]; intros last s t; [done|].
  destruct (respond s s3 c) as [s' r] eqn:H.
  rewrite (wait_loop_step _ _ _ _ _ H).
  destruct r as [e|t']; [done|].
  case_bool_decide as Ht.
  - cbv zeta. cbn [outcome final trace]. intros Ho.
    destruct (IH _ _ _ Ho) as (k & s1 & Hk & Hst & Hr & Htr).
    exists (S k), s1. split; [lia|]. split; [|split; [done|]].
    + cbn [stale_reads]. exists s', t'. by fold c.
    + by rewrite Htr.
  - cbn [outcome final trace]. intros [= <-].
    exists 0%nat, s. split; [lia|]. split; [done|]. by split.
Qed.
End Wait.


Lemma merged_tags_lookup purge (desired current : tags_dict) k :
  merged_tags purge desired current !! k =
  if purge then desired !! k
  else match desired !! k with Some v => Some v | None => current !! k end.
Proof.
  unfold merged_tags. destruct purge; [done|].
  rewrite lookup_union. by destruct (desired !! k), (current !! k).
Qed.

Lemma ensure_tags_run client module bucket obj desired s s' (current : tags_dict) :
  p_tags (module_params module) = Some desired →
  respond s client (GetObjectTagging bucket obj None) = (s', inr current) →
  let purge := p_purge_tags (module_params module) in
  let target := merged_tags purge desired current in
  ensure_tags respond client module bucket obj s =
  if bool_decide (current ≠ target) then
    let write :=
      if bool_decide (target ≠ ∅) then
        try_except (put_object_tagging respond client bucket obj target)
          (on_boto (wrap_failure "Failed to update object tags."))
      else if purge then
        try_except (delete_object_tagging respond client bucket obj)
          (on_boto (wrap_failure "Failed to delete object tags."))
      else mret tt in
    let r := (write;;
              current_tags_dict ← wait_tags_are_applied respond module client bucket obj target None;
              mret (current_tags_dict, true)) s' in
    Run (outcome r) (final r) (Api client (GetObjectTagging bucket obj None) :: trace r)
  else Run (inr (current, false)) s' [Api client (GetObjectTagging bucket obj None)].
Proof.
  intros Htags H. cbv zeta. unfold ensure_tags, get_current_object_tags_dict.
  change (version_kw None) with (@None string).
  rewrite bind_run, try_except_run, (call_run _ _ _ _ _ H). cbn [outcome final trace].
  rewrite Htags. destruct (bool_decide (current ≠ _)); reflexivity.
Qed.

Lemma merged_tags_empty purge (desired current : tags_dict) :
  merged_tags purge desired current = ∅ →
  merged_tags purge desired current ≠ current → purge = true.
Proof.
  destruct purge; [done|]. unfold merged_tags. intros He Hne.
  destruct Hne. rewrite He. symmetry. apply map_eq. intros k.
  rewrite lookup_empty.
  assert (Hk : (desired ∪ current) !! k = None) by (by rewrite He).
  by apply lookup_union_None in Hk as [_ ?].
Qed.

(** The write of [ensure_tags]: one call, which the service accepts or
    refuses. *)
Lemma ensure_tags_write_run client bucket obj (purge : bool)
    (desired current : tags_dict) s' :
  let target := merged_tags purge desired current in
  let write :=
    if bool_decide (target ≠ ∅) then
      try_except (put_object_tagging respond client bucket obj target)
        (on_boto (wrap_failure "Failed to update object tags."))
    else if purge then
      try_except (delete_object_tagging respond client bucket obj)
        (on_boto (wrap_failure "Failed to delete object tags."))
    else mret tt in
  target ≠ current →
  (∃ s2, tag_write_accepted respond client bucket obj target s' s2 ∧
         write s' = Run (inr tt) s2 [Api client (tag_write bucket obj target)])
  ∨ (∃ e s2,
       write s' = Run (inl e) s2 [Api client (tag_write bucket obj target)] ∧
       ∀ s2', ¬ tag_write_accepted respond client bucket obj target s' s2').
Proof.
  intros target write Hne. unfold write, tag_write_accepted, tag_write.
  case_bool_decide as Hempty.
  - unfold put_object_tagging.
    destruct (respond s' client (PutObjectTagging bucket obj target))
      as [s2 [e|[]]] eqn:Hput;
      rewrite try_except_run, (call_run _ _ _ _ _ Hput);
      cbn [outcome final trace on_boto].
    + right. unfold wrap_failure.
      destruct (is_botocore_error e); eauto.
    + left. eauto.
  - assert (Hp : purge = true).
    { apply (merged_tags_empty _ desired current); [|done].
      fold target. by destruct (decide (target = ∅)); [|destruct Hempty]. }
    rewrite Hp. unfold delete_object_tagging.
    destruct (respond s' client (DeleteObjectTagging bucket obj))
      as [s2 [e|[]]] eqn:Hdel;
      rewrite try_except_run, (call_run _ _ _ _ _ Hdel);
      cbn [outcome final trace on_boto].
    + right. unfold wrap_failure.
      destruct (is_botocore_error e); eauto.
    + left. eauto.
Qed.

Lemma tag_write_accepted_inj client bucket obj (target : tags_dict) s s1 s2 :
  tag_write_accepted respond client bucket obj target s s1 →
  tag_write_accepted respond client bucket obj target s s2 →
  s1 = s2.
Proof.
  unfold tag_write_accepted. case_bool_decide; intros H1 H2;
    rewrite H1 in H2; by injection H2.
Qed.

Lemma is_tag_write_tag_write client bucket obj (target : tags_dict) :
  is_tag_write (Api client (tag_write bucket obj target)) = true.
Proof. unfold tag_write. by case_bool_decide. Qed.

(** C2.  When tags are asked for, [ensure_tags] works towards the desired
    tags when [purge_tags] is on, and towards the current tags updated with
    the desired ones (the desired value wins on a shared key) when it is
    off.  If that target equals the current tags, the tags are read and
    nothing else happens: no tagging call, [changed] false.  Otherwise
    exactly one tagging call follows the read, a full replace by the target
    when the target is not empty and a deletion of all tags when it is
    empty (which needs [purge_tags]).  After the write the function reads
    the tags again until a read shows exactly the target: when it returns,
    the service has accepted the write, then shown other tags to [k < 12]
    reads, each followed by a sleep, and then the target to the last read
    of the trace, and these observed tags are what is returned, with
    [changed] true; and whenever the service answers so, the function
    returns so. *)
Theorem ensure_tags_target client module bucket obj desired s s'
    (current : tags_dict) :
  p_tags (module_params module) = Some desired →
  respond s client (GetObjectTagging bucket obj None) = (s', inr current) →
  let purge := p_purge_tags (module_params module) in
  let target := merged_tags purge desired current in
  let r := ensure_tags respond client module bucket obj s in
  (∀ k, target !! k =
        if purge then desired !! k
        else match desired !! k with
             | Some v => Some v
             | None => current !! k
             end) ∧
  (target = current →
   r = Run (inr (current, false)) s'
         [Api client (GetObjectTagging bucket obj None)]) ∧
  (target ≠ current →
   (target = ∅ → purge = true) ∧
   (∃ rest,
      trace r =
        Api client (GetObjectTagging bucket obj None)
        :: Api client (if bool_decide (target ≠ ∅)
                       then PutObjectTagging bucket obj target
                       else DeleteObjectTagging bucket obj)
        :: rest ∧
      forallb (λ ev, negb (is_tag_write ev)) rest = true) ∧
   (∀ t changed,
      outcome r = inr (t, changed) →
      t = target ∧ changed = true ∧
      ∃ (k : nat) s2 s3,
        (k < 12)%nat ∧
        tag_write_accepted respond client bucket obj target s' s2 ∧
        stale_reads respond client bucket obj None target k s2 s3 ∧
        respond s3 client (GetObjectTagging bucket obj None)
        = (final r, inr t) ∧
        trace r =
          Api client (GetObjectTagging bucket obj None)
          :: Api client (tag_write bucket obj target)
          :: convergence_reads client bucket obj None k) ∧
   (∀ (k : nat) s2 s3 s4,
      (k < 12)%nat →
      tag_write_accepted respond client bucket obj target s' s2 →
      stale_reads respond client bucket obj None target k s2 s3 →
      respond s3 client (GetObjectTagging bucket obj None)
      = (s4, inr target) →
      r = Run (inr (target, true)) s4
            (Api client (GetObjectTagging bucket obj None)
             :: Api client (tag_write bucket obj target)
             :: convergence_reads client bucket obj None k))).
Proof.
  intros Htags H purge target r.
  split; [intros k; apply merged_tags_lookup|].
  unfold r. rewrite (ensure_tags_run _ _ _ _ _ _ _ _ Htags H).
  fold purge. fold target. split.
  { intros Heq. by rewrite bool_decide_false by (by rewrite Heq; intros []). }
  intros Hne. rewrite bool_decide_true by done.
  split; [intros He; by apply (merged_tags_empty _ desired current)|].
  cbv zeta. cbn [outcome final trace].
  assert (Hwait : ∀ s0, forallb (λ ev, negb (is_tag_write ev))
            (trace (wait_tags_are_applied respond module client bucket obj
                      target None s0)) = true).
  { intros s0. by apply traced_wait_tags_loop. }
  change (Api client (if bool_decide (target ≠ ∅)
                      then PutObjectTagging bucket obj target
                      else DeleteObjectTagging bucket obj))
    with (Api client (tag_write bucket obj target)).
  destruct (ensure_tags_write_run client bucket obj purge desired current s'
              Hne) as [(s2 & Hacc & Hw) | (e & s2 & Hw & Hrefused)];
    fold target in Hacc, Hw || fold target in Hw, Hrefused.
  - erewrite bind_run_ok by exact Hw. rewrite bind_run.
    cbn [outcome final trace app].
    split; [|split].
    + destruct (outcome (wait_tags_are_applied _ _ _ _ _ _ _ s2));
        cbn [outcome final trace app]; rewrite ?app_nil_r; eauto.
    + intros t changed.
      destruct (outcome (wait_tags_are_applied _ _ _ _ _ _ _ s2))
        as [e|t'] eqn:Ho; cbn [outcome final trace app]; [done|].
      intros [= <- <-]. rewrite app_nil_r.
      destruct (wait_loop_converged module client bucket obj target None 12
                  None s2 t' Ho) as (k & s1 & Hk & Hst & Hr & Htr).
      split; [by apply (wait_loop_result module client bucket obj target
                          None 12 None s2)|].
      split; [done|]. exists k, s2, s1.
      unfold wait_tags_are_applied. rewrite Htr. done.
    + intros k s2' s3 s4 Hk Hacc' Hst Hr.
      rewrite (tag_write_accepted_inj _ _ _ _ _ _ _ Hacc' Hacc) in Hst.
      unfold wait_tags_are_applied.
      rewrite (wait_loop_converges module client bucket obj target None 12 k
                 None s2 s3 s4 Hk Hst Hr).
      cbn [outcome final trace mret M_ret app]. by rewrite app_nil_r.
  - erewrite bind_run_err by exact Hw. cbn [outcome final trace].
    split; [by exists []|]. split; [done|].
    intros k s2' s3 s4 _ Hacc. by destruct (Hrefused s2').
Qed.


(** *** Existence probes *)

Lemma key_check_run module s3 bucket obj version validate s s'
    (r : boto_exn + option head_info) :
  respond s s3 (HeadObject bucket obj (version_kw version)) = (s', r) →
  key_check respond module s3 bucket obj version validate s =
  Run (match r with
       | inr _ => inr true
       | inl e =>
           if is_boto3_error_code ["404"] e then inr false
           else if is_boto3_error_code ["403"] e then
             if validate then
               inl (SystemExit (FailJson (FailKwargs
                      (probe_message (KeyProbe bucket obj version)) (Some e)
                      None None)))
             else inr true
           else if is_botocore_error e then
             inl (S3ObjectFailure
                    (probe_message (KeyProbe bucket obj version)) (Some e))
           else inl (Boto e)
       end) s' [Api s3 (HeadObject bucket obj (version_kw version))].
Proof.
  intros H. unfold key_check.
  rewrite try_except_run, bind_run, (call_run _ _ _ _ _ H).
  destruct r as [e|v]; cbn [outcome final trace on_boto]; [|done].
  destruct (is_boto3_error_code ["404"] e); [done|].
  destruct (is_boto3_error_code ["403"] e); [by destruct validate|].
  unfold wrap_failure. by destruct (is_botocore_error e).
Qed.

Lemma bucket_check_run module s3 bucket validate s s' (r : boto_exn + unit) :
  respond s s3 (HeadBucket bucket) = (s', r) →
  bucket_check respond module s3 bucket validate s =
  Run (match r with
       | inr _ => inr true
       | inl e =>
           if is_boto3_error_code ["404"] e then inr false
           else if is_boto3_error_code ["403"] e then
             if validate then
               inl (SystemExit (FailJson (FailKwargs
                      (probe_message (BucketProbe bucket)) (Some e)
                      None None)))
             else inr true
           else if is_botocore_error e then
             inl (S3ObjectFailure (probe_message (BucketProbe bucket))
                    (Some e))
           else inl (Boto e)
       end) s' [Api s3 (HeadBucket bucket)].
Proof.
  intros H. unfold bucket_check.
  rewrite try_except_run, bind_run, (call_run _ _ _ _ _ H).
  destruct r as [e|v]; cbn [outcome final trace on_boto]; [|done].
  destruct (is_boto3_error_code ["404"] e); [done|].
  destruct (is_boto3_error_code ["403"] e); [by destruct validate|].
  unfold wrap_failure. by destruct (is_botocore_error e).
Qed.

(** C7.  An existence probe, of a key or of a bucket, that is answered
    access-denied (403) returns [True] when [validate] is off and fails with
    the fault attached when [validate] is on; a probe that is answered
    not-found (404) returns [False] either way.  The probe issues its one
    head call and nothing else. *)
Theorem existence_probe_forbidden_or_missing module s3 (p : probe)
    (validate : bool) s s' (code message : string) :
  respond s s3 (probe_call p) = (s', inl (ClientError code message)) →
  code = "403" ∨ code = "404" →
  run_probe respond module s3 p validate s =
  Run (if decide (code = "404") then inr false
       else if validate then
         inl (SystemExit (FailJson (FailKwargs (probe_message p)
                (Some (ClientError code message)) None None)))
       else inr true)
      s' [Api s3 (probe_call p)].
Proof.
  intros H Hcode. destruct p as [bucket obj version|bucket]; cbn [run_probe].
  - rewrite (key_check_run _ _ _ _ _ _ _ _ _ H).
    by destruct Hcode as [-> | ->].
  - rewrite (bucket_check_run _ _ _ _ _ _ _ H).
    by destruct Hcode as [-> | ->].
Qed.

(** *** The convergence loop *)

(** C6.  When no observation of the tags equals the target, the loop reads
    the tags 12 times, sleeps 5 after each read, and then fails with the
    requested tags and the tags of the last read; the trace holds nothing
    else, so nothing is polled after the 12th read.  "No observation equals
    the target" is stated over the states [Inv] the service goes
    through. *)
Theorem tag_convergence_timeout (Inv : St → Prop) module s3 bucket obj
    (expected : tags_dict) version :
  let c := GetObjectTagging bucket obj (version_kw version) in
  let observe := λ s, (respond s s3 c).1 in
  (∀ s, Inv s →
        ∃ s' (t : tags_dict),
          respond s s3 c = (s', inr t) ∧ t ≠ expected ∧ Inv s') →
  ∀ s, Inv s →
  let r := wait_tags_are_applied respond module s3 bucket obj expected
             version s in
  trace r = concat (replicate 12 [Api s3 c; Sleep 5]) ∧
  length (calls_of (trace r)) = 12%nat ∧
  ∃ live : tags_dict,
    respond (Nat.iter 11 observe s) s3 c
      = (Nat.iter 12 observe s, inr live) ∧
    live ≠ expected ∧
    outcome r =
      inl (SystemExit (FailJson (FailKwargs
             "Object tags failed to apply in the expected time." None
             (Some expected) (Some live)))).
Proof.
  intros c observe Hne s Hs r.
  destruct (wait_loop_never module s3 bucket obj expected version Inv 11 Hne
              None s Hs) as (Htr & _ & live & Hlive & Hl & Hout).
  fold c in Htr. unfold r, wait_tags_are_applied.
  split; [exact Htr|]. split; [by rewrite Htr|]. eauto.
Qed.

(** *** Downloads *)

Section Download.
Variables (module : ansible_module) (s3 : conn) (bucket : string).
Variables (obj dest : option string) (retries : Z) (version : option string).
Let dl := DownloadFile bucket obj dest (version_kw version).

Lemma download_attempts_step n x s s' (r : boto_exn + unit) :
  respond s s3 dl = (s', r) →
  download_attempts respond (S n) x module s3 bucket obj dest retries version s
  = match r with
    | inr _ =>
        Run (inl (SystemExit (ExitJson
                    (msg_changed "GET operation complete" true))))
          s' [Api s3 dl]
    | inl e =>
        if caught_by_transfer_loop e then
          if Z.geb x retries then
            Run (inl (download_failure obj e)) s' [Api s3 dl]
          else
            after_event (Api s3 dl)
              (download_attempts respond n (x + 1) module s3 bucket obj dest
                 retries version s')
        else Run (inl (Boto e)) s' [Api s3 dl]
    end.
Proof.
  intros H. unfold dl in *. cbn [download_attempts].
  rewrite bind_run, try_except_run, bind_run, (call_run _ _ _ _ _ H).
  destruct r as [e|[]]; cbn [outcome final trace on_boto]; [|done].
  unfold download_failure.
  destruct e; cbn [is_botocore_error caught_by_transfer_loop]; try done;
    destruct (Z.geb x retries); done.
Qed.

Lemma download_attempts_le n : ∀ x s,
  (downloads (trace (download_attempts respond n x module s3 bucket obj dest
                       retries version s)) ≤ n)%nat.
Proof.
  induction n as [|n IH]; intros x s; [done|].
  destruct (respond s s3 dl) as [s' r] eqn:H.
  rewrite (download_attempts_step _ _ _ _ _ H).
  destruct r as [e|]; [|cbn; lia].
  destruct (caught_by_transfer_loop e); [|cbn; lia].
  destruct (Z.geb x retries); [cbn; lia|].
  unfold after_event, downloads. cbn [trace List.filter is_download length].
  apply le_n_S, IH.
Qed.

Lemma download_s3file_le s :
  (downloads (trace (download_s3file respond module s3 bucket obj dest retries
                       version s)) ≤ Z.to_nat (retries + 1))%nat.
Proof.
  unfold download_s3file. rewrite bind_run.
  unfold check_mode_exit. destruct (check_mode module); [cbn; lia|].
  cbn [mret M_ret outcome final trace].
  rewrite bind_run, try_except_run, bind_run.
  destruct (respond s s3 (GetObject bucket obj (version_kw version)))
    as [s' r] eqn:H.
  rewrite (call_run _ _ _ _ _ H).
  destruct r as [e|v]; cbn [outcome final trace on_boto app].
  - destruct (is_boto3_error_code ["404"; "403"] e); [cbn; lia|].
    destruct (is_boto3_error_message _ e); [cbn; lia|].
    destruct (is_boto3_error_code ["InvalidArgument"] e); [cbn; lia|].
    unfold wrap_failure. destruct (is_botocore_error e); cbn; lia.
  - unfold downloads. cbn [List.filter is_download].
    apply download_attempts_le.
Qed.

Lemma download_attempts_first n x s :
  ∃ rest,
    trace (download_attempts respond (S n) x module s3 bucket obj dest retries
             version s) = Api s3 dl :: rest.
Proof.
  destruct (respond s s3 dl) as [s' r] eqn:H.
  rewrite (download_attempts_step _ _ _ _ _ H).
  destruct r as [e|]; [|by eexists].
  destruct (caught_by_transfer_loop e); [|by eexists].
  destruct (Z.geb x retries); by eexists.
Qed.

(** Attempts that meet a caught fault while attempts are left are followed
    by the next attempt. *)
Lemma download_attempts_faults faults : ∀ n x s s1,
  Forall (λ e, caught_by_transfer_loop e = true) faults →
  failed_attempts respond s3 dl faults s s1 →
  (x + Z.of_nat (length faults) ≤ retries)%Z →
  download_attempts respond (length faults + n) x module s3 bucket obj dest
    retries version s =
  let r := download_attempts respond n (x + Z.of_nat (length faults)) module
             s3 bucket obj dest retries version s1 in
  Run (outcome r) (final r)
    (replicate (length faults) (Api s3 dl) ++ trace r).
Proof.
  induction faults as [|e faults IH]; intros n x s s1 Hc Hf Hx.
  - cbn [failed_attempts] in Hf. subst s1. cbn [length Nat.add replicate app].
    cbv zeta. rewrite Z.add_0_r. by rewrite run_eta.
  - cbn [failed_attempts] in Hf. destruct Hf as (s' & Hr & Hf).
    apply Forall_cons in Hc as [He Hc].
    cbn [length Nat.add]. rewrite (download_attempts_step _ _ _ _ _ Hr), He.
    cbn [length] in Hx.
    destruct (Z.geb_spec x retries) as [?|_]; [lia|].
    rewrite (IH n (x + 1) s' s1) by (done || lia).
    cbv zeta. unfold after_event. cbn [outcome final trace replicate app].
    by replace (x + 1 + Z.of_nat (length faults))
      with (x + Z.of_nat (S (length faults))) by lia.
Qed.

(** Outside check mode, once the read of the object has succeeded, the
    download is the loop of the attempts from [x = 0]. *)
Lemma download_s3file_read_ok s s0 (body : string) :
  check_mode module = false →
  respond s s3 (GetObject bucket obj (version_kw version)) = (s0, inr body) →
  download_s3file respond module s3 bucket obj dest retries version s =
  after_event (Api s3 (GetObject bucket obj (version_kw version)))
    (download_attempts respond (Z.to_nat (retries + 1)) 0 module s3 bucket
       obj dest retries version s0).
Proof.
  intros Hc H. unfold download_s3file, check_mode_exit. rewrite Hc.
  rewrite ret_bind_run.
  erewrite bind_run_ok.
  2:{ erewrite try_except_run_ok; [reflexivity|].
      erewrite bind_run_ok by (by rewrite (call_run _ _ _ _ _ H)).
      reflexivity. }
  reflexivity.
Qed.

(** The runs of a download whose first [length faults] attempts meet caught
    faults, by the answer [r] to the next attempt. *)
Lemma download_s3file_attempts s s0 (body : string) faults s1 s2
    (r : boto_exn + unit) :
  check_mode module = false →
  respond s s3 (GetObject bucket obj (version_kw version)) = (s0, inr body) →
  Forall (λ e, caught_by_transfer_loop e = true) faults →
  (Z.of_nat (length faults) ≤ retries)%Z →
  failed_attempts respond s3 dl faults s0 s1 →
  respond s1 s3 dl = (s2, r) →
  let run := download_s3file respond module s3 bucket obj dest retries
               version s in
  let attempts :=
    Api s3 (GetObject bucket obj (version_kw version))
    :: replicate (S (length faults)) (Api s3 dl) in
  match r with
  | inr _ =>
      run = Run (inl (SystemExit (ExitJson
                        (msg_changed "GET operation complete" true))))
              s2 attempts
  | inl e =>
      if caught_by_transfer_loop e then
        if Z.ltb (Z.of_nat (length faults)) retries then
          ∃ rest, trace run = (attempts ++ Api s3 dl :: rest)%list
        else run = Run (inl (download_failure obj e)) s2 attempts
      else run = Run (inl (Boto e)) s2 attempts
  end.
Proof.
  intros Hc Hget Hcaught Hlen Hf Hr run attempts. unfold run, attempts.
  rewrite (download_s3file_read_ok s s0 body Hc Hget).
  replace (Z.to_nat (retries + 1))
    with (length faults + S (Z.to_nat (retries - Z.of_nat (length faults))))%nat
    by lia.
  rewrite (download_attempts_faults faults _ 0 s0 s1) by (done || lia).
  cbv zeta. rewrite (download_attempts_step _ _ _ _ _ Hr).
  rewrite Z.add_0_l.
  assert (Hrep : ∀ (ev : event) k l,
            (replicate k ev ++ ev :: l)%list = (replicate (S k) ev ++ l)%list).
  { intros ev k l. induction k as [|k IH]; [done|].
    cbn [replicate app]. by rewrite IH. }
  destruct r as [e|[]].
  - destruct (caught_by_transfer_loop e).
    + destruct (Z.ltb_spec (Z.of_nat (length faults)) retries),
        (Z.geb_spec (Z.of_nat (length faults)) retries); try lia.
      * unfold after_event. cbn [outcome final trace].
        destruct (Z.to_nat (retries - Z.of_nat (length faults))) as [|m] eqn:Hm;
          [lia|].
        destruct (download_attempts_first m (Z.of_nat (length faults) + 1) s2)
          as [rest ->].
        exists rest. rewrite Hrep. by rewrite <- app_comm_cons.
      * unfold after_event. cbn [outcome final trace].
        by rewrite Hrep, app_nil_r.
    + unfold after_event. cbn [outcome final trace].
      by rewrite Hrep, app_nil_r.
  - unfold after_event. cbn [outcome final trace].
    by rewrite Hrep, app_nil_r.
Qed.

(** C5 (amended).  The file transfer of a download with retry count
    [retries] is attempted at most [retries + 1] times.  Outside check
    mode, once the read of the object has succeeded, the transfer is
    attempted from the first round of the loop on; an attempt that fails is
    followed by another exactly when attempts are left and the fault is one
    the loop catches, that is any [ClientError] (whatever its code, so also
    access-denied and not-found), any [BotoCoreError] and any [SSLError];
    any other fault ends the download at once, as it is; an attempt that
    succeeds ends the module with [changed=True]; and a caught fault of the
    attempt number [retries + 1] ends the download with a failure that
    carries this fault. *)
Theorem download_retry_policy :
  (∀ s,
     (downloads (trace (download_s3file respond module s3 bucket obj dest
                          retries version s)) ≤ Z.to_nat (retries + 1))%nat) ∧
  ((0 ≤ retries)%Z →
   ∀ s,
     (Z.of_nat (downloads (trace (download_s3file respond module s3 bucket
                                    obj dest retries version s)))
      ≤ retries + 1)%Z) ∧
  (check_mode module = false →
   ∀ s s0 (body : string) faults s1 s2 (r : boto_exn + unit),
     respond s s3 (GetObject bucket obj (version_kw version))
     = (s0, inr body) →
     Forall (λ e, caught_by_transfer_loop e = true) faults →
     (Z.of_nat (length faults) ≤ retries)%Z →
     failed_attempts respond s3
       (DownloadFile bucket obj dest (version_kw version)) faults s0 s1 →
     respond s1 s3 (DownloadFile bucket obj dest (version_kw version))
     = (s2, r) →
     let run := download_s3file respond module s3 bucket obj dest retries
                  version s in
     let attempts :=
       Api s3 (GetObject bucket obj (version_kw version))
       :: replicate (S (length faults))
            (Api s3 (DownloadFile bucket obj dest (version_kw version))) in
     match r with
     | inr _ =>
         run = Run (inl (SystemExit (ExitJson
                           (msg_changed "GET operation complete" true))))
                 s2 attempts
     | inl e =>
         if caught_by_transfer_loop e then
           if Z.ltb (Z.of_nat (length faults)) retries then
             ∃ rest,
               trace run =
                 (attempts
                  ++ Api s3 (DownloadFile bucket obj dest
                               (version_kw version)) :: rest)%list
           else run = Run (inl (download_failure obj e)) s2 attempts
         else run = Run (inl (Boto e)) s2 attempts
     end).
Proof.
  split; [apply download_s3file_le|]. split.
  { intros Hr s. pose proof (download_s3file_le s). lia. }
  intros Hc s s0 body faults s1 s2 r Hget Hcaught Hlen Hf Hr.
  exact (download_s3file_attempts s s0 body faults s1 s2 r Hc Hget Hcaught
           Hlen Hf Hr).
Qed.

End Download.

(** *** The get operation *)

Lemma s3_vars_str_obj (v : s3_vars) : s3_vars_str v "obj" = None.
Proof. reflexivity. Qed.

(** When the destination is not there, the get operation is the probe of
    the key followed by the download: [overwrite] is not read. *)
Lemma s3_object_do_get_fresh_dest module connection (v : s3_vars) d s :
  p_dest (v_params v) = Some d →
  os_path_exists h d = false →
  s3_object_do_get respond h module connection v s =
  (let p := v_params v in
   keyrtn ← key_check respond module connection (p_bucket p) (p_object p)
              (p_version p) (v_validate v);
   (if negb (keyrtn : bool) then
      (if truthy (p_version p) then
         fail_json ("Key " +:+ py_str (p_object p) +:+ " with version id "
                    +:+ py_str (p_version p) +:+ " does not exist.")
       else mret tt);;
      fail_json ("Key " +:+ py_str (p_object p) +:+ " does not exist.")
    else mret tt);;
   mret tt;;
   try_except
     (download_s3file respond module connection (p_bucket p) (p_object p)
        (Some d) (p_retries p) (p_version p))
     (λ e,
        match e with
        | Sigv4Required =>
            Some (connection ← get_s3_connection module (v_location v)
                                 (p_ceph p) (p_endpoint_url p) true;
                  obj ← getitem "obj" None;
                  download_s3file respond module connection (p_bucket p) obj
                    (Some d) (p_retries p) (p_version p))
        | _ => None
        end);;
   exit_json (ExitKwargs None None None None None None None (Some false))) s.
Proof.
  intros Hd Hp. unfold s3_object_do_get. cbv zeta.
  rewrite s3_vars_str_obj, Hd.
  change (default EmptyString (Some d)) with d. unfold path_check.
  rewrite Hp. rewrite andb_false_r. cbn [andb]. reflexivity.
Qed.

Lemma bind_prefix {A B : Type} (m : Mst A) (f : A → Mst B) s :
  ∃ rest, trace ((m ≫= f) s) = (trace (m s) ++ rest)%list.
Proof.
  rewrite bind_run. destruct (outcome (m s)); cbn [trace]; [|eauto].
  exists []. by rewrite app_nil_r.
Qed.

Lemma try_except_prefix {A : Type} (m : Mst A) hd s :
  ∃ rest, trace (try_except m hd s) = (trace (m s) ++ rest)%list.
Proof.
  rewrite try_except_run.
  destruct (outcome (m s)) as [e|]; [destruct (hd e)|]; cbn [trace];
    eauto; exists []; by rewrite app_nil_r.
Qed.

Lemma download_s3file_check_mode module s3 bucket obj dest retries version s :
  check_mode module = true →
  download_s3file respond module s3 bucket obj dest retries version s =
  Run (inl (SystemExit (ExitJson (msg_changed
         "GET operation skipped - running in check mode" true)))) s [].
Proof.
  intros Hc. unfold download_s3file, check_mode_exit. rewrite Hc. reflexivity.
Qed.

Lemma download_s3file_first_call module s3 bucket obj dest retries version s :
  check_mode module = false →
  ∃ rest,
    trace (download_s3file respond module s3 bucket obj dest retries version s)
    = Api s3 (GetObject bucket obj (version_kw version)) :: rest.
Proof.
  intros Hc. unfold download_s3file, check_mode_exit. rewrite Hc.
  rewrite ret_bind_run.
  destruct (bind_prefix
    (try_except
       (call respond s3 (GetObject bucket obj (version_kw version));; mret tt)
       (on_boto (λ e,
          if is_boto3_error_code ["404"; "403"] e then
            Some (fail_json_aws e
                    ("Could not find the key " +:+ py_str obj +:+ "."))
          else if is_boto3_error_message "require AWS Signature Version 4" e
          then Some (raise Sigv4Required)
          else if is_boto3_error_code ["InvalidArgument"] e then
            Some (fail_json_aws e
                    ("Could not find the key " +:+ py_str obj +:+ "."))
          else wrap_failure
                 ("Could not find the key " +:+ py_str obj +:+ ".") e)))
    (λ _, download_attempts respond (Z.to_nat (retries + 1)) 0 module s3
            bucket obj dest retries version) s) as [rest1 ->].
  match goal with
  | |- context [trace (try_except ?m ?hd s)] =>
      destruct (try_except_prefix m hd s) as [rest2 ->];
      destruct (bind_prefix (call respond s3
                  (GetObject bucket obj (version_kw version)))
                  (λ _, mret tt) s) as [rest3 ->]
  end.
  cbn [call trace app]. eauto.
Qed.

(** C9.  When the destination of a get does not exist on the host, the
    operation does not depend on [overwrite]: any two policies give the
    same run.  Once the probe of the key has answered that the key is
    there, the download is entered, with [overwrite=never] as with any
    other policy: in check mode it ends as skipped, and otherwise its
    first call, the read of the object, is issued; when the service answers
    the read, the transfer to the destination is attempted, and when an
    attempt succeeds, after attempts that met caught faults within the
    retry count, the module ends with "GET operation complete" and
    [changed=True]: the run is the probe, the read, and the attempts of the
    transfer.  With a retry count of 0 or more the first attempt is always
    made. *)
Theorem get_fresh_destination_ignores_overwrite module connection
    (v : s3_vars) d s :
  p_dest (v_params v) = Some d →
  os_path_exists h d = false →
  let p := v_params v in
  let probe := key_check respond module connection (p_bucket p) (p_object p)
                 (p_version p) (v_validate v) s in
  let read := GetObject (p_bucket p) (p_object p)
                (version_kw (p_version p)) in
  let transfer := DownloadFile (p_bucket p) (p_object p) (Some d)
                    (version_kw (p_version p)) in
  (∀ o1 o2,
     s3_object_do_get respond h module connection
       (with_params (set_overwrite o1) v) s =
     s3_object_do_get respond h module connection
       (with_params (set_overwrite o2) v) s) ∧
  (outcome probe = inr true →
   ∀ o,
     let r := s3_object_do_get respond h module connection
                (with_params (set_overwrite o) v) s in
     if check_mode module then
       r = Run (inl (SystemExit (ExitJson (msg_changed
                  "GET operation skipped - running in check mode" true))))
             (final probe) (trace probe)
     else
       (∃ rest,
          trace r = (trace probe ++ Api connection read :: rest)%list) ∧
       (∀ s0 (body : string),
          respond (final probe) connection read = (s0, inr body) →
          (0 ≤ p_retries p)%Z →
          ∃ rest,
            trace r =
              (trace probe
               ++ Api connection read :: Api connection transfer
                  :: rest)%list) ∧
       (∀ s0 (body : string) faults s1 s2,
          respond (final probe) connection read = (s0, inr body) →
          Forall (λ e, caught_by_transfer_loop e = true) faults →
          (Z.of_nat (length faults) ≤ p_retries p)%Z →
          failed_attempts respond connection transfer faults s0 s1 →
          respond s1 connection transfer = (s2, inr tt) →
          r = Run (inl (SystemExit (ExitJson
                          (msg_changed "GET operation complete" true))))
                s2
                (trace probe
                 ++ Api connection read
                    :: replicate (S (length faults))
                         (Api connection transfer))%list)).
Proof.
  intros Hd Hp p probe read transfer.
  assert (Hrun : ∀ o,
    s3_object_do_get respond h module connection
      (with_params (set_overwrite o) v) s =
    s3_object_do_get respond h module connection v s).
  { intros o.
    rewrite (s3_object_do_get_fresh_dest _ _ _ d) by done.
    by rewrite (s3_object_do_get_fresh_dest _ _ v d). }
  split; [intros o1 o2; by rewrite !Hrun|].
  intros Hk o r. unfold r. rewrite Hrun.
  rewrite (s3_object_do_get_fresh_dest _ _ v d) by done.
  cbv zeta. fold p. rewrite bind_run. fold probe. rewrite Hk.
  cbn [negb]. rewrite !ret_bind_run.
  destruct (check_mode module) eqn:Hc.
  - rewrite bind_run, try_except_run.
    rewrite download_s3file_check_mode by done.
    cbn [outcome final trace]. by rewrite app_nil_r.
  - split; [|split].
    + match goal with
      | |- context [trace ((try_except ?m ?hd ≫= ?f) ?s1)] =>
          destruct (bind_prefix (try_except m hd) f s1) as [rest1 ->];
          destruct (try_except_prefix m hd s1) as [rest2 ->]
      end.
      destruct (download_s3file_first_call module connection (p_bucket p)
                  (p_object p) (Some d) (p_retries p) (p_version p)
                  (final probe) Hc) as [rest3 ->].
      cbn [trace app]. rewrite <- !app_assoc. cbn [app]. eauto.
    + intros s0 body Hread Hretries.
      match goal with
      | |- context [trace ((try_except ?m ?hd ≫= ?f) ?s1)] =>
          destruct (bind_prefix (try_except m hd) f s1) as [rest1 ->];
          destruct (try_except_prefix m hd s1) as [rest2 ->]
      end.
      rewrite (download_s3file_read_ok module connection (p_bucket p)
                 (p_object p) (Some d) (p_retries p) (p_version p)
                 (final probe) s0 body Hc Hread).
      destruct (Z.to_nat (p_retries p + 1)) as [|m] eqn:Hm; [lia|].
      destruct (download_attempts_first module connection (p_bucket p)
                  (p_object p) (Some d) (p_retries p) (p_version p) m 0 s0)
        as [rest3 Hrest3].
      unfold after_event. cbn [trace]. rewrite Hrest3.
      cbn [trace app]. rewrite <- !app_assoc. cbn [app]. eauto.
    + intros s0 body faults s1 s2 Hread Hcaught Hlen Hf Hok.
      pose proof (download_s3file_attempts module connection (p_bucket p)
                    (p_object p) (Some d) (p_retries p) (p_version p)
                    (final probe) s0 body faults s1 s2 (inr tt) Hc Hread
                    Hcaught Hlen Hf Hok) as Hdl.
      cbv zeta beta iota in Hdl.
      erewrite bind_run_err; [reflexivity|].
      rewrite try_except_run, Hdl. reflexivity.
Qed.

(** *** Exceptions of a computation *)

Lemma raises_ret {A : Type} Q (a : A) : raises (St:=St) Q (mret a).
Proof. intros s e. cbn. done. Qed.

Lemma raises_raise {A : Type} (Q : exn → Prop) e :
  Q e → raises (St:=St) Q (raise (A:=A) e).
Proof. intros H s e'. cbn. by intros [= <-]. Qed.

Lemma raises_call (Q : exn → Prop) s3 c :
  (∀ b, Q (Boto b)) → raises Q (call respond s3 c).
Proof.
  intros H s e. unfold call. cbn [outcome].
  destruct (respond s s3 c).2; [|done]. by intros [= <-].
Qed.

Lemma raises_bind {A B : Type} Q (m : Mst A) (f : A → Mst B) :
  raises Q m → (∀ a, raises Q (f a)) → raises Q (m ≫= f).
Proof.
  intros Hm Hf s e. rewrite bind_run.
  destruct (outcome (m s)) as [e'|a] eqn:Ho; cbn [outcome].
  - intros [= <-]. by apply (Hm s).
  - apply Hf.
Qed.

Lemma raises_try {A : Type} (Q : exn → Prop) (m : Mst A) hd :
  (∀ s e, outcome (m s) = inl e →
          match hd e with Some k => raises Q k | None => Q e end) →
  raises Q (try_except m hd).
Proof.
  intros H s e. rewrite try_except_run.
  destruct (outcome (m s)) as [e'|a] eqn:Ho; [|by rewrite Ho].
  specialize (H s e' Ho). destruct (hd e') as [k|]; cbn [outcome].
  - apply H.
  - rewrite Ho. by intros [= <-].
Qed.

Lemma raises_for_each {A : Type} Q (l : list A) (body : A → Mst unit) :
  (∀ x, raises Q (body x)) → raises Q (for_each l body).
Proof.
  intros H. induction l as [|x l IH]; cbn [for_each].
  - apply raises_ret.
  - apply raises_bind; [apply H | intros _; apply IH].
Qed.

Lemma raises_paginate {A : Type} (Q : exn → Prop) (listing : Mst (paged A)) :
  raises (λ e, ∃ b, e = Boto b) listing → raises Q (paginate listing).
Proof.
  intros H. apply raises_try. intros s e Ho.
  destruct (H s e Ho) as [b ->]. cbn [on_boto]. apply raises_ret.
Qed.

Lemma raises_reraise (Q : exn → Prop) err :
  (∀ b, Q (Boto b)) → raises (St:=St) Q (reraise err).
Proof.
  intros H. destruct err; [by apply raises_raise | apply raises_ret].
Qed.

Lemma raises_versioned_list (Q : exn → Prop) s3 bucket body :
  (∀ b, Q (Boto b)) → (∀ keys, raises Q (body keys)) →
  raises Q (paginated_versioned_list_with_fallback respond s3 bucket body).
Proof.
  intros Hb Hbody. unfold paginated_versioned_list_with_fallback.
  apply raises_bind; [|intros r].
  { apply raises_paginate, (raises_call _ s3 (ListObjectVersions bucket)).
    eauto. }
  apply raises_bind; [by apply raises_for_each|]. intros _.
  destruct r.2 as [e|]; [|apply raises_ret].
  destruct (is_boto3_error_code _ e); [|by apply raises_raise].
  unfold for_in, paginated_list.
  apply raises_bind; [|intros r2].
  { apply raises_bind; [|intros ?; apply raises_ret].
    apply raises_paginate,
      (raises_call _ s3 (ListObjectsV2 bucket None None None)).
    eauto. }
  apply raises_bind; [by apply raises_for_each|].
  intros _. by apply raises_reraise.
Qed.

(** *** The delete operation *)

Lemma boto_no_change b : no_change_reported (Boto b).
Proof. by intros res. Qed.

Lemma failure_no_change msg cause : no_change_reported (S3ObjectFailure msg cause).
Proof. by intros res. Qed.

Lemma raises_bucket_check module s3 bucket validate :
  raises no_change_reported (bucket_check respond module s3 bucket validate).
Proof.
  intros s e. destruct (respond s s3 (HeadBucket bucket)) as [s' r] eqn:H.
  rewrite (bucket_check_run _ _ _ _ _ _ _ H). cbn [outcome].
  destruct r as [b|]; [|done].
  repeat match goal with
         | |- context [if ?c then _ else _] => destruct c
         end; intros [= <-]; intros res [=]; by subst.
Qed.

Lemma emit_bind_run {B : Type} ev (f : unit → Mst B) s :
  (emit ev ≫= f) s = after_event ev (f tt s).
Proof. reflexivity. Qed.

Lemma call_inv s3 c s (v : reply c) :
  outcome (call respond s3 c s) = inr v →
  respond s s3 c = (final (call respond s3 c s), inr v).
Proof.
  unfold call. cbn [outcome final].
  destruct (respond s s3 c) as [s' [e|v']]; cbn; congruence.
Qed.

Section Delete.
Variables (module : ansible_module) (s3 : conn) (bucket : string).
Hypothesis Hcheck : check_mode module = false.

Let delete_keys : list object_identifier → Mst unit :=
  λ keys, match keys with
          | [] => mret tt
          | _ :: _ => call respond s3 (DeleteObjects bucket keys)
          end.

Lemma delete_bucket_run s :
  delete_bucket respond module s3 bucket s =
  after_event (Deprecate "Support for deleting S3 buckets using the s3_object module has been deprecated.  Please use the ``s3_bucket`` module instead.")
    (try_except
       (exists_ ← bucket_check respond module s3 bucket true;
        if negb exists_ then mret false
        else
          paginated_versioned_list_with_fallback respond s3 bucket delete_keys;;
          call respond s3 (DeleteBucket bucket);;
          mret true)
       (on_boto (λ e,
          if is_boto3_error_code ["NoSuchBucket"] e then Some (mret false)
          else wrap_failure
                 ("Failed while deleting bucket " +:+ bucket +:+ ".") e)) s).
Proof.
  unfold delete_bucket, check_mode_exit. rewrite Hcheck, emit_bind_run.
  by rewrite ret_bind_run.
Qed.

Lemma raises_delete_bucket :
  raises no_change_reported (delete_bucket respond module s3 bucket).
Proof.
  intros s e. rewrite delete_bucket_run. unfold after_event. cbn [outcome].
  revert s e. apply raises_try. intros s e Ho.
  assert (Hbody : no_change_reported e).
  { revert s e Ho. apply raises_bind; [apply raises_bucket_check|].
    intros ex. destruct (negb ex); [apply raises_ret|].
    apply raises_bind.
    - apply raises_versioned_list; [apply boto_no_change|].
      intros [|k keys]; [apply raises_ret|].
      apply (raises_call _ s3 (DeleteObjects bucket (k :: keys))),
        boto_no_change.
    - intros _. apply raises_bind; [|intros ?; apply raises_ret].
      apply (raises_call _ s3 (DeleteBucket bucket)), boto_no_change. }
  destruct e as [b| | | | | |res]; cbn [on_boto]; try done.
  destruct (is_boto3_error_code ["NoSuchBucket"] b); [apply raises_ret|].
  unfold wrap_failure. destruct (is_botocore_error b); [|done].
  apply raises_raise, failure_no_change.
Qed.

Lemma delete_bucket_true s :
  outcome (delete_bucket respond module s3 bucket s) = inr true →
  ∃ s0, respond s0 s3 (DeleteBucket bucket)
        = (final (delete_bucket respond module s3 bucket s), inr tt).
Proof.
  rewrite delete_bucket_run. unfold after_event. cbn [outcome final].
  rewrite try_except_run.
  match goal with
  | |- context [outcome (?body s)] => set (B := body)
  end.
  destruct (outcome (B s)) as [e|v] eqn:Ho.
  { destruct e as [b| | | | | |res]; cbn [on_boto]; try (by rewrite Ho).
    destruct (is_boto3_error_code ["NoSuchBucket"] b); [done|].
    unfold wrap_failure. destruct (is_botocore_error b); [done|].
    by rewrite Ho. }
  rewrite Ho. intros [= ->]. revert Ho. unfold B.
  rewrite bind_run.
  destruct (outcome (bucket_check respond module s3 bucket true s))
    as [e|[]]; cbn [outcome final negb]; try done.
  rewrite bind_run.
  match goal with
  | |- context [outcome (?P ?s1)] =>
      destruct (outcome (P s1)) as [e|[]] eqn:HP; cbn [outcome final];
        [done|]; set (s2 := final (P s1))
  end.
  rewrite bind_run.
  destruct (outcome (call respond s3 (DeleteBucket bucket) s2))
    as [e|[]] eqn:Hc; cbn [outcome final]; [done|].
  intros _. exists s2. by apply call_inv.
Qed.

End Delete.

Lemma s3_object_do_delete_changed module connection (v : s3_vars) s res :
  check_mode module = false →
  outcome (s3_object_do_delete respond module connection v s)
  = inl (SystemExit res) →
  reports_changed res = true →
  ∃ s0, respond s0 connection (DeleteBucket (p_bucket (v_params v)))
        = (final (s3_object_do_delete respond module connection v s), inr tt).
Proof.
  intros Hc. unfold s3_object_do_delete. cbv zeta.
  destruct (String.eqb (p_bucket (v_params v)) EmptyString).
  { cbn. by intros [= <-]. }
  rewrite bind_run.
  destruct (outcome (delete_bucket respond module connection
                       (p_bucket (v_params v)) s)) as [e|[]] eqn:Ho;
    cbn [outcome final].
  - intros [= ->] Hr.
    by rewrite (raises_delete_bucket _ _ _ Hc s _ Ho res) in Hr.
  - cbn [exit_json raise outcome final]. intros _ _.
    by apply delete_bucket_true.
  - done.
Qed.

Lemma main_dispatch_delete_changed module connection (v : s3_vars) s res :
  check_mode module = false →
  p_mode (v_params v) = mode_delete →
  outcome (main_dispatch respond h module connection v s)
  = inl (SystemExit res) →
  reports_changed res = true →
  ∃ s0, respond s0 connection (DeleteBucket (p_bucket (v_params v)))
        = (final (main_dispatch respond h module connection v s), inr tt).
Proof.
  intros Hc Hm. unfold main_dispatch. rewrite Hm. cbn [func_mapping].
  rewrite bind_run, try_except_run, bind_run.
  destruct (outcome (s3_object_do_delete respond module connection v s))
    as [e|[]] eqn:Ho; cbn [outcome final trace].
  2:{ cbn. by intros [= <-]. }
  destruct e as [b| |msg cause| | | |res0]; cbn [outcome final trace];
    try done.
  - repeat match goal with
           | |- context [if ?c then _ else _] => destruct c
           end; cbn; try done; by intros [= <-].
  - destruct cause; cbn; by intros [= <-].
  - intros [= ->] Hr.
    by apply (s3_object_do_delete_changed module connection v s res).
Qed.

Lemma delete_bucket_absent module s3 bucket s s' message :
  check_mode module = false →
  respond s s3 (HeadBucket bucket) = (s', inl (ClientError "404" message)) →
  delete_bucket respond module s3 bucket s =
  Run (inr false) s'
    [Deprecate "Support for deleting S3 buckets using the s3_object module has been deprecated.  Please use the ``s3_bucket`` module instead.";
     Api s3 (HeadBucket bucket)].
Proof.
  intros Hc H. rewrite delete_bucket_run by done.
  erewrite try_except_run_ok; [reflexivity|].
  erewrite bind_run_ok;
    [|rewrite (bucket_check_run _ _ _ _ _ _ _ H); reflexivity].
  reflexivity.
Qed.

Lemma main_dispatch_delete_absent module connection (v : s3_vars) s s'
    message :
  check_mode module = false →
  p_mode (v_params v) = mode_delete →
  p_bucket (v_params v) ≠ EmptyString →
  respond s connection (HeadBucket (p_bucket (v_params v)))
  = (s', inl (ClientError "404" message)) →
  main_dispatch respond h module connection v s =
  Run (inl exit_not_failed) s'
    [delete_deprecation; Api connection (HeadBucket (p_bucket (v_params v)))].
Proof.
  intros Hc Hm Hb H. unfold main_dispatch. rewrite Hm. cbn [func_mapping].
  unfold s3_object_do_delete. cbv zeta.
  destruct (String.eqb_spec (p_bucket (v_params v)) EmptyString); [done|].
  erewrite bind_run_ok.
  2:{ erewrite try_except_run_ok; [reflexivity|].
      erewrite bind_run_ok.
      2:{ erewrite bind_run_ok; [|by apply (delete_bucket_absent _ _ _ _ s' message)].
          reflexivity. }
      reflexivity. }
  reflexivity.
Qed.

Lemma main_dispatch_delete_check_mode module connection (v : s3_vars) s :
  check_mode module = true →
  p_mode (v_params v) = mode_delete →
  p_bucket (v_params v) ≠ EmptyString →
  main_dispatch respond h module connection v s =
  Run (inl (SystemExit (ExitJson (msg_changed
         "DELETE operation skipped - running in check mode" true))))
    s [delete_deprecation].
Proof.
  intros Hc Hm Hb. unfold main_dispatch. rewrite Hm. cbn [func_mapping].
  unfold s3_object_do_delete. cbv zeta.
  destruct (String.eqb_spec (p_bucket (v_params v)) EmptyString); [done|].
  unfold delete_bucket, check_mode_exit. rewrite Hc. reflexivity.
Qed.

(** C8 (amended).  The delete operation on a bucket with a name.  Outside
    check mode it is idempotent.  On a bucket that the service answers as
    not found, the run is the deprecation notice and the probe of the
    bucket, so no deletion call, and it ends with [failed=False] and no
    [changed] key.  When a delete has reported a change, the service has
    deleted the bucket; so, on a service that shows a deleted bucket as not
    found, a second delete from the state the first one left is again the
    notice and the probe, and ends with [failed=False] and no [changed]
    key.  In check mode the operation ends with [changed=True] before it
    probes the bucket. *)
Theorem delete_idempotent_outside_check_mode module connection
    (v : s3_vars) :
  p_mode (v_params v) = mode_delete →
  p_bucket (v_params v) ≠ EmptyString →
  let bucket := p_bucket (v_params v) in
  let delete := main_dispatch respond h module connection v in
  (check_mode module = false →
   (∀ s s' message,
      respond s connection (HeadBucket bucket)
      = (s', inl (ClientError "404" message)) →
      delete s =
        Run (inl exit_not_failed) s'
          [delete_deprecation; Api connection (HeadBucket bucket)]) ∧
   (deleted_bucket_is_absent respond connection bucket →
    ∀ s res,
      outcome (delete s) = inl (SystemExit res) →
      reports_changed res = true →
      ∃ s',
        delete (final (delete s)) =
          Run (inl exit_not_failed) s'
            [delete_deprecation; Api connection (HeadBucket bucket)])) ∧
  (check_mode module = true →
   ∀ s,
     delete s =
       Run (inl (SystemExit (ExitJson (msg_changed
              "DELETE operation skipped - running in check mode" true))))
         s [delete_deprecation]).
Proof.
  intros Hm Hb bucket delete. split.
  - intros Hc. split.
    + intros s s' message H.
      by apply (main_dispatch_delete_absent _ _ _ _ s' message).
    + intros Hservice s res Ho Hr.
      destruct (main_dispatch_delete_changed _ _ _ _ _ Hc Hm Ho Hr)
        as [s0 Hdel].
      destruct (Hservice _ _ Hdel) as (s2 & message & Hhead).
      exists s2. by apply (main_dispatch_delete_absent _ _ _ _ s2 message).
  - intros Hc s. by apply main_dispatch_delete_check_mode.
Qed.

(** *** The put operation *)



Lemma traced_etag_compare P module s3 bucket obj version local_file content :
  P (Api s3 (HeadObject bucket obj (version_kw version))) = true →
  traced P (etag_compare respond h module s3 bucket obj version local_file
              content).
Proof.
  intros H. unfold etag_compare, get_etag.
  apply traced_bind; [|intros; apply traced_ret].
  apply traced_try.
  - apply traced_bind; [by apply traced_call | intros []; apply traced_ret].
  - traced_auto.
Qed.





Section Put.
Variables (module : ansible_module) (connection : conn) (v : s3_vars).
Variable s : St.
Let p := v_params v.
Let probe := key_check respond module connection (p_bucket p) (p_object p)
               (p_version p) (v_validate v) s.

Hypothesis Hsource :
  ¬ (p_content p = None ∧ p_content_base64 p = None ∧ p_src p = None).
Hypothesis Hlocal : ∀ src, p_src p = Some src → os_path_exists h src = true.
Hypothesis Hbucket : v_bucketrtn v = Some true.
Hypothesis Hpresent : outcome probe = inr true.


Lemma bind_assoc_run {A B C : Type} (m : Mst A) (f : A → Mst B)
    (g : B → Mst C) s0 :
  ((m ≫= f) ≫= g) s0 = (m ≫= λ a, f a ≫= g) s0.
Proof.
  rewrite (bind_run (m ≫= f)), (bind_run m f), (bind_run m).
  destruct (outcome (m s0)) as [e|a]; cbn [outcome final trace]; [done|].
  rewrite bind_run.
  destruct (outcome (f a (final (m s0)))); cbn [outcome final trace];
    [done|]. by rewrite app_assoc.
Qed.


End Put.

(** *** Request validation *)

Lemma bind_inv {A B : Type} (m : Mst A) (f : A → Mst B) s0 b :
  outcome ((m ≫= f) s0) = inr b →
  ∃ a, outcome (m s0) = inr a ∧ outcome (f a (final (m s0))) = inr b.
Proof.
  rewrite bind_run. destruct (outcome (m s0)) as [e|a]; [done|]. eauto.
Qed.

Lemma ret_inv {A : Type} (a b : A) (s0 : St) :
  outcome (mret (M:=Mst) a s0) = inr b → a = b.
Proof. by intros [=]. Qed.

(** What [populate_facts] makes of [overwrite]. *)
Lemma overwrite_step_inv (variable_dict vd : params) (s0 : St) :
  outcome
    ((if bool_decide (p_overwrite variable_dict ∉
          [Some "always"; Some "never"; Some "different"; Some "latest"])
      then
        match module_boolean h (p_overwrite variable_dict) with
        | inl msg => fail_json msg
        | inr (Some true) => mret (set_overwrite (Some "always") variable_dict)
        | inr _ => mret (set_overwrite (Some "never") variable_dict)
        end
      else mret variable_dict) s0) = inr vd →
  let supplied := p_overwrite variable_dict in
  p_overwrite vd ∈ overwrite_policies ∧
  (supplied ∈ overwrite_policies → p_overwrite vd = supplied) ∧
  (supplied ∉ overwrite_policies →
   (module_boolean h supplied = inr (Some true) ∧
    p_overwrite vd = Some "always") ∨
   ((module_boolean h supplied = inr (Some false) ∨
     module_boolean h supplied = inr None) ∧
    p_overwrite vd = Some "never")).
Proof using h.
  fold overwrite_policies. case_bool_decide as Hin.
  - destruct (module_boolean h (p_overwrite variable_dict))
      as [msg|[[]|]] eqn:Hb; [done|..]; intros [= <-]; cbn [set_overwrite p_overwrite];
      (split; [by apply (bool_decide_unpack _)|]); split; try done;
      intros _; eauto.
  - intros [= <-]. cbv zeta.
    assert (Hin' : p_overwrite variable_dict ∈ overwrite_policies).
    { by destruct (decide (p_overwrite variable_dict ∈ overwrite_policies)). }
    done.
Qed.

(** C10 (amended).  After [populate_facts] has accepted a request,
    [overwrite] is one of [always], [never], [different] and [latest].
    A supplied value among these four is kept.  Any other value goes
    through the Boolean conversion of the module: true gives [always],
    false (or no value) gives [never]; and a value that the conversion
    refuses is rejected, the request is not accepted. *)
Theorem overwrite_policy_after_validation module (s : St) :
  let supplied := p_overwrite (module_params module) in
  (∀ v, outcome (populate_facts h module s) = inr v →
     p_overwrite (v_params v) ∈ overwrite_policies ∧
     (supplied ∈ overwrite_policies → p_overwrite (v_params v) = supplied) ∧
     (supplied ∉ overwrite_policies →
      (module_boolean h supplied = inr (Some true) ∧
       p_overwrite (v_params v) = Some "always") ∨
      ((module_boolean h supplied = inr (Some false) ∨
        module_boolean h supplied = inr None) ∧
       p_overwrite (v_params v) = Some "never"))) ∧
  (∀ msg, supplied ∉ overwrite_policies →
     module_boolean h supplied = inl msg →
     ∃ e, outcome (populate_facts h module s) = inl e).
Proof using h.
  intros supplied.
  assert (Hacc : ∀ v, outcome (populate_facts h module s) = inr v →
     p_overwrite (v_params v) ∈ overwrite_policies ∧
     (supplied ∈ overwrite_policies → p_overwrite (v_params v) = supplied) ∧
     (supplied ∉ overwrite_policies →
      (module_boolean h supplied = inr (Some true) ∧
       p_overwrite (v_params v) = Some "always") ∨
      ((module_boolean h supplied = inr (Some false) ∨
        module_boolean h supplied = inr None) ∧
       p_overwrite (v_params v) = Some "never"))).
  { intros v Hv. unfold populate_facts in Hv. cbv zeta in Hv.
    apply bind_inv in Hv as ([] & _ & Hv).
    apply bind_inv in Hv as ([] & _ & Hv).
    apply bind_inv in Hv as (vd & Hvd & Hv).
    apply overwrite_step_inv in Hvd. cbv zeta in Hvd. fold supplied in Hvd.
    apply bind_inv in Hv as ([] & _ & Hv).
    apply bind_inv in Hv as (vd' & Hvd' & Hv).
    apply bind_inv in Hv as ([] & _ & Hv).
    apply ret_inv in Hv as <-. cbn [v_params].
    assert (Hsame : p_overwrite vd' = p_overwrite vd).
    { revert Hvd'. destruct (environ_S3_URL h) as [url|];
        [|by intros [= <-]].
      destruct (negb (truthy (p_endpoint_url vd))); [|by intros [= <-]].
      rewrite bind_run. cbn. by intros [= <-]. }
    by rewrite Hsame. }
  split; [exact Hacc|].
  intros msg Hnot Hb.
  destruct (outcome (populate_facts h module s)) as [e|v] eqn:Ho; [eauto|].
  destruct (Hacc v eq_refl) as (_ & _ & Hc).
  destruct (Hc Hnot) as [[Ht _] | [[Hf | Hn] _]]; congruence.
Qed.

End Proofs.

(** * The properties on sample runs *)

(** A probe of a key that is answered 403 with [validate] off returns
    [True]. *)
Lemma existence_probe_witness :
  run_probe fake_respond (get_request mode_get 0 true) aws
    (KeyProbe "bkt" (Some "k") None) false forbidden_store
  = Run (inr true) forbidden_store
      [Api aws (HeadObject "bkt" (Some "k") None)].
Proof.
  exact (existence_probe_forbidden_or_missing fake_respond
           (get_request mode_get 0 true) aws
           (KeyProbe "bkt" (Some "k") None) false forbidden_store
           forbidden_store "403" "Forbidden" eq_refl (or_introl eq_refl)).
Defined.

(** The same probe with [validate] on fails with the fault attached, and a
    probe of a missing key returns [False]. *)
Example existence_probe_validate_and_missing :
  outcome (key_check fake_respond (get_request mode_get 0 true) aws "bkt"
             (Some "k") None true forbidden_store)
  = inl (SystemExit (FailJson (FailKwargs
           "Failed while looking up object (during key check) k."
           (Some (ClientError "403" "Forbidden")) None None))) ∧
  outcome (key_check fake_respond (get_request mode_get 0 true) aws "bkt"
             (Some "missing") None true sample_store) = inr false ∧
  outcome (bucket_check fake_respond (get_request mode_get 0 true) aws
             "nowhere" false sample_store) = inr false.
Proof. by vm_compute. Qed.

(** With current tags [a=1] and desired tags [b=2], purging, the tags are
    read, replaced by [b=2], and read again; the second read shows [b=2],
    which is returned. *)
Lemma ensure_tags_witness :
  ensure_tags fake_respond aws
    (put_request false "never" (Some {[ "b" := "2" ]}) true) "bkt" (Some "k")
    sample_store
  = Run (inr ({[ "b" := "2" ]}, true))
      (store_with "bkt" [("k", tagged "hello" {[ "b" := "2" ]})])
      [Api aws (GetObjectTagging "bkt" (Some "k") None);
       Api aws (PutObjectTagging "bkt" (Some "k") {[ "b" := "2" ]});
       Api aws (GetObjectTagging "bkt" (Some "k") None)].
Proof.
  destruct (ensure_tags_target fake_respond aws
              (put_request false "never" (Some {[ "b" := "2" ]}) true)
              "bkt" (Some "k") {[ "b" := "2" ]} sample_store sample_store
              {[ "a" := "1" ]} eq_refl eq_refl) as (_ & _ & H).
  destruct H as (_ & _ & _ & H).
  { apply (bool_decide_unpack _). by vm_compute. }
  refine (H 0%nat (store_with "bkt" [("k", tagged "hello" {[ "b" := "2" ]})])
            (store_with "bkt" [("k", tagged "hello" {[ "b" := "2" ]})])
            (store_with "bkt" [("k", tagged "hello" {[ "b" := "2" ]})])
            _ eq_refl eq_refl eq_refl).
  lia.
Defined.

(** The scenario of the spec: current [a=1], desired [b=2]. *)
Example tag_convergence_purge :
  let module := put_request false "never" (Some {[ "b" := "2" ]}) true in
  let r := ensure_tags fake_respond aws module "bkt" (Some "k") sample_store in
  outcome r = inr ({[ "b" := "2" ]}, true) ∧
  remote_tags (final r) "bkt" "k" = Some {[ "b" := "2" ]} ∧
  calls_of (trace r) =
    [GetObjectTagging "bkt" (Some "k") None;
     PutObjectTagging "bkt" (Some "k") {[ "b" := "2" ]};
     GetObjectTagging "bkt" (Some "k") None].
Proof. by vm_compute. Qed.

Example tag_convergence_merge :
  let module := put_request false "never" (Some {[ "b" := "2" ]}) false in
  let r := ensure_tags fake_respond aws module "bkt" (Some "k") sample_store in
  outcome r = inr ({[ "a" := "1"; "b" := "2" ]}, true) ∧
  remote_tags (final r) "bkt" "k" = Some {[ "a" := "1"; "b" := "2" ]}.
Proof. by vm_compute. Qed.

Example tag_convergence_noop :
  let module := put_request false "never" (Some {[ "a" := "1" ]}) true in
  ensure_tags fake_respond aws module "bkt" (Some "k") sample_store
  = Run (inr ({[ "a" := "1" ]}, false)) sample_store
      [Api aws (GetObjectTagging "bkt" (Some "k") None)].
Proof. by vm_compute. Qed.

Example tag_convergence_purge_all :
  let module := put_request false "never" (Some ∅) true in
  let r := ensure_tags fake_respond aws module "bkt" (Some "k") sample_store in
  outcome r = inr (∅, true) ∧
  calls_of (trace r) =
    [GetObjectTagging "bkt" (Some "k") None;
     DeleteObjectTagging "bkt" (Some "k");
     GetObjectTagging "bkt" (Some "k") None].
Proof. by vm_compute. Qed.


(** The runs of the spec's properties of put: [never] and an equal
    fingerprint skip the transfer and report no change, a tag update
    reports a change, [always] and a different fingerprint upload. *)
Example put_never_unchanged :
  let module := put_request false "never" None true in
  let r := main fake_respond plain_host module sample_store in
  outcome r =
    inl (SystemExit (ExitJson (ExitKwargs (Some "Download url:") (Some false)
           (Some "https://bkt.s3.amazonaws.com/k?method=get_object")
           (Some {[ "a" := "1" ]}) (Some 600) None None None))) ∧
  calls_of (trace r) =
    [HeadBucket "bkt"; GetBucketOwnershipControls "bkt"; HeadBucket "bkt";
     HeadObject "bkt" (Some "k") None;
     GetObjectTagging "bkt" (Some "k") None;
     GeneratePresignedUrl "get_object" "bkt" (Some "k") 600].
Proof. by vm_compute. Qed.

Example put_different_same_fingerprint :
  let module := put_request false "different" (Some {[ "b" := "2" ]}) true in
  let r := main fake_respond plain_host module sample_store in
  (∃ kw, outcome r = inl (SystemExit (ExitJson kw)) ∧
         ek_changed kw = Some true ∧ ek_msg kw = Some "Download url:") ∧
  forallb (λ ev, negb (is_upload ev)) (trace r) = true ∧
  remote_tags (final r) "bkt" "k" = Some {[ "b" := "2" ]}.
Proof. vm_compute. eauto 10. Qed.

Example put_always_uploads :
  let module := put_request false "always" None true in
  let r := main fake_respond plain_host module sample_store in
  (∃ kw, outcome r = inl (SystemExit (ExitJson kw)) ∧
         ek_changed kw = Some true ∧
         ek_msg kw = Some "PUT operation complete") ∧
  length (List.filter is_upload (trace r)) = 1%nat.
Proof. vm_compute. eauto 10. Qed.

Example put_different_other_fingerprint :
  let module :=
    AnsibleModule false
      (set_content (Some "bye") (default_params "bkt" mode_put (Some "k"))) in
  let r := main fake_respond plain_host module sample_store in
  length (List.filter is_upload (trace r)) = 1%nat ∧
  outcome (download_s3str fake_respond (get_request mode_getstr 0 true) aws
             "bkt" (Some "k") None (final r))
  = inl (SystemExit (ExitJson (ExitKwargs (Some "GET operation complete")
           (Some true) None None None (Some "bye") None None))).
Proof. by vm_compute. Qed.

(** A download with two retries whose first two attempts time out
    succeeds at the third. *)
Lemma download_retry_witness :
  download_s3file fake_respond (get_request mode_get 2 true) aws "bkt"
    (Some "k") (Some "/tmp/k") 2 None
    (flaky_store [timeout_fault; SSLError "timed out"])
  = Run (inl (SystemExit (ExitJson
                (msg_changed "GET operation complete" true))))
      (flaky_store [])
      [Api aws (GetObject "bkt" (Some "k") None);
       Api aws (DownloadFile "bkt" (Some "k") (Some "/tmp/k") None);
       Api aws (DownloadFile "bkt" (Some "k") (Some "/tmp/k") None);
       Api aws (DownloadFile "bkt" (Some "k") (Some "/tmp/k") None)].
Proof.
  refine (proj2 (proj2 (download_retry_policy fake_respond
                          (get_request mode_get 2 true) aws "bkt" (Some "k")
                          (Some "/tmp/k") 2 None))
            eq_refl (flaky_store [timeout_fault; SSLError "timed out"])
            (flaky_store [timeout_fault; SSLError "timed out"]) "hello"
            [timeout_fault; SSLError "timed out"] (flaky_store [])
            (flaky_store []) (inr tt) eq_refl _ _ _ eq_refl).
  - by repeat constructor.
  - cbn. lia.
  - exists (flaky_store [SSLError "timed out"]). split; [reflexivity|].
    exists (flaky_store []). by split.
Defined.

(** A transfer that is answered access-denied is attempted again: a fault
    outside the transient class of the spec is retried. *)
Lemma download_retries_forbidden_counterexample :
  ¬ only_transient_retried fake_respond (get_request mode_get 1 true) aws
      "bkt" (Some "k") (Some "/tmp/k") 1 None.
Proof.
  intros H.
  specialize (H (flaky_store [ClientError "403" "Forbidden"])
                (flaky_store [ClientError "403" "Forbidden"])
                (flaky_store []) "hello" (ClientError "403" "Forbidden")
                eq_refl eq_refl eq_refl).
  vm_compute in H. lia.
Qed.

(** The whole module on the same request: the transfer answered
    access-denied is attempted again, and the module ends as complete. *)
Example download_retries_forbidden :
  let r := main fake_respond plain_host (get_request mode_get 1 true)
             (flaky_store [ClientError "403" "Forbidden"]) in
  is_transient (ClientError "403" "Forbidden") = false ∧
  outcome r
  = inl (SystemExit (ExitJson (msg_changed "GET operation complete" true))) ∧
  downloads (trace r) = 2%nat.
Proof. by vm_compute. Qed.

(** Two transient faults and two retries: the third attempt succeeds.
    Three transient faults: the fault of the third attempt is surfaced.  A
    fault of the local file system is not retried. *)
Example download_retries :
  let run faults :=
    main fake_respond plain_host (get_request mode_get 2 true)
      (flaky_store faults) in
  (outcome (run [timeout_fault; SSLError "timed out"])
   = inl (SystemExit (ExitJson (msg_changed "GET operation complete" true))) ∧
   downloads (trace (run [timeout_fault; SSLError "timed out"])) = 3%nat) ∧
  (outcome (run [timeout_fault; timeout_fault; SSLError "timed out"])
   = inl (SystemExit (FailJson (FailKwargs "s3 download failed"
            (Some (SSLError "timed out")) None None))) ∧
   downloads (trace (run [timeout_fault; timeout_fault;
                          SSLError "timed out"])) = 3%nat) ∧
  (outcome (run [SSLError "timed out"; timeout_fault; timeout_fault])
   = inl (SystemExit (FailJson (FailKwargs "Failed while downloading k."
            (Some timeout_fault) None None)))) ∧
  (outcome (run [OSError "No space left on device"])
   = inl (Boto (OSError "No space left on device")) ∧
   downloads (trace (run [OSError "No space left on device"])) = 1%nat).
Proof. by vm_compute. Qed.

(** On a store that accepts tag writes and never shows them, the loop gives
    up after 12 reads. *)
Lemma tag_convergence_timeout_witness :
  length (calls_of (trace (wait_tags_are_applied fake_respond
                             (put_request false "never" None true) aws "bkt"
                             (Some "k") {[ "b" := "2" ]} None
                             lagging_store))) = 12%nat.
Proof.
  refine (proj1 (proj2 (tag_convergence_timeout fake_respond
                          (λ s, s = lagging_store)
                          (put_request false "never" None true) aws "bkt"
                          (Some "k") {[ "b" := "2" ]} None _
                          lagging_store eq_refl))).
  intros s ->. exists lagging_store, {[ "a" := "1" ]}.
  split; [reflexivity|]. split; [|reflexivity].
  apply (bool_decide_unpack _). by vm_compute.
Defined.

Example tag_convergence_times_out :
  let module := put_request false "never" (Some {[ "b" := "2" ]}) true in
  let r := ensure_tags fake_respond aws module "bkt" (Some "k")
             lagging_store in
  outcome r =
    inl (SystemExit (FailJson (FailKwargs
           "Object tags failed to apply in the expected time." None
           (Some {[ "b" := "2" ]}) (Some {[ "a" := "1" ]})))) ∧
  length (List.filter
            (λ ev, match ev with Sleep n => Z.eqb n 5 | _ => false end)
            (trace r)) = 12%nat ∧
  length (calls_of (trace r)) = 14%nat.
Proof. by vm_compute. Qed.

(** The store without fault switches shows a bucket it has deleted as not
    found. *)
Lemma store_deleted_bucket_is_absent s3 bucket :
  deleted_bucket_is_absent store_respond s3 bucket.
Proof.
  intros s0 s1. unfold store_respond. cbn.
  destruct (s0 !! bucket) as [objs|] eqn:Hb; cbn; [|done].
  destruct (bool_decide (objs = ∅)); cbn; [|done].
  intros [= <-]. exists (delete bucket s0), "Not Found".
  by rewrite lookup_delete_eq.
Qed.

(** Outside check mode, a second delete of the bucket [x] of the spec's
    scenario probes the bucket and ends without a change. *)
Lemma delete_idempotent_witness :
  let delete :=
    main_dispatch store_respond plain_host (delete_request false) aws
      (vars_of (module_params (delete_request false))) in
  ∃ s',
    delete (final (delete (fs_buckets bulk_store))) =
    Run (inl exit_not_failed) s'
      [delete_deprecation; Api aws (HeadBucket "x")].
Proof.
  assert (Hname : p_bucket (v_params (vars_of (module_params
                                                 (delete_request false))))
                  ≠ EmptyString) by done.
  pose proof (proj2 (proj1 (delete_idempotent_outside_check_mode
                              store_respond plain_host (delete_request false)
                              aws
                              (vars_of (module_params (delete_request false)))
                              eq_refl Hname) eq_refl)
                (store_deleted_bucket_is_absent aws "x")
                (fs_buckets bulk_store)
                (ExitJson (msg_changed
                             "Bucket x and all keys have been deleted." true)))
    as H.
  apply H; by vm_compute.
Defined.

(** In check mode, a delete of a bucket that is not there reports a
    change: the delete operation is not idempotent as stated. *)
Lemma delete_check_mode_counterexample :
  ¬ delete_idempotent store_respond plain_host (delete_request true) aws
      (vars_of (module_params (delete_request true))).
Proof.
  intros [H _].
  destruct (H ∅ ∅ "Not Found") as [_ (res & Ho & Hr)]; [by vm_compute|].
  vm_compute in Ho. injection Ho as <-. discriminate Hr.
Qed.

(** The scenario of the spec: a bucket with the keys [p/1] and [p/2]. *)
Example bulk_delete_twice :
  let first := main fake_respond plain_host (delete_request false)
                 bulk_store in
  let second := main fake_respond plain_host (delete_request false)
                  (final first) in
  outcome first =
    inl (SystemExit (ExitJson (msg_changed
           "Bucket x and all keys have been deleted." true))) ∧
  fs_buckets (final first) = ∅ ∧
  List.filter is_deletion (trace first) =
    [Api aws (DeleteObjects "x"
                [ObjectIdentifier "p/1" (Some "null");
                 ObjectIdentifier "p/2" (Some "null")]);
     Api aws (DeleteBucket "x")] ∧
  outcome second =
    inl (SystemExit (ExitJson (ExitKwargs None None None None None None None
                                 (Some false)))) ∧
  List.filter is_deletion (trace second) = [].
Proof. by vm_compute. Qed.

Example delete_check_mode_reports_change :
  outcome (main fake_respond plain_host (delete_request true)
             (store_with "other" []))
  = inl (SystemExit (ExitJson (msg_changed
           "DELETE operation skipped - running in check mode" true))).
Proof. by vm_compute. Qed.

(** A get with [overwrite=never] to a destination that is not there
    downloads the object. *)
Lemma get_fresh_destination_witness :
  s3_object_do_get fake_respond plain_host (get_request mode_get 0 true) aws
    (with_params (set_overwrite (Some "never"))
       (vars_of (module_params (get_request mode_get 0 true)))) sample_store
  = Run (inl (SystemExit (ExitJson
                (msg_changed "GET operation complete" true))))
      sample_store
      [Api aws (HeadObject "bkt" (Some "k") None);
       Api aws (GetObject "bkt" (Some "k") None);
       Api aws (DownloadFile "bkt" (Some "k") (Some "/tmp/k") None)].
Proof.
  refine (proj2 (proj2 (proj2 (get_fresh_destination_ignores_overwrite
                          fake_respond plain_host
                          (get_request mode_get 0 true) aws
                          (vars_of (module_params
                                      (get_request mode_get 0 true)))
                          "/tmp/k" sample_store eq_refl eq_refl)
                   eq_refl (Some "never")))
            sample_store "hello" [] sample_store sample_store eq_refl
            (List.Forall_nil _) _ eq_refl eq_refl).
  cbn. lia.
Defined.

Example get_never_downloads_to_fresh_destination :
  let module := with_overwrite (Some "never") (get_request mode_get 0 true) in
  (outcome (main fake_respond plain_host module sample_store)
   = inl (SystemExit (ExitJson (msg_changed "GET operation complete" true))) ∧
   downloads (trace (main fake_respond plain_host module sample_store))
   = 1%nat) ∧
  (outcome (main fake_respond (host_with_files ["/tmp/k"]) module
              sample_store)
   = inl (SystemExit (ExitJson (msg_changed
            "Local object already exists and overwrite is disabled." false))) ∧
   downloads (trace (main fake_respond (host_with_files ["/tmp/k"]) module
                       sample_store)) = 0%nat).
Proof. by vm_compute. Qed.

(** A request with [overwrite=yes] is accepted with a policy of the
    four. *)
Lemma overwrite_policy_witness :
  ∃ v,
    outcome (populate_facts plain_host
               (with_overwrite (Some "yes")
                  (put_request false "never" None true)) tt) = inr v ∧
    p_overwrite (v_params v) ∈ overwrite_policies.
Proof.
  eexists. split; [by vm_compute|].
  refine (proj1 (proj1 (overwrite_policy_after_validation plain_host
                          (with_overwrite (Some "yes")
                             (put_request false "never" None true)) tt)
                   _ _)).
  by vm_compute.
Defined.

Example overwrite_booleans :
  let policy o :=
    match outcome (populate_facts plain_host
                     (with_overwrite o (put_request false "never" None true))
                     tt) with
    | inr v => inr (p_overwrite (v_params v))
    | inl e => inl e
    end in
  policy (Some "yes") = inr (Some "always") ∧
  policy (Some " True ") = inr (Some "always") ∧
  policy (Some "off") = inr (Some "never") ∧
  policy None = inr (Some "never") ∧
  policy (Some "latest") = inr (Some "latest") ∧
  policy (Some "maybe") =
    inl (SystemExit (FailJson (FailKwargs
           "The value 'maybe' is not a valid boolean." None None None))).
Proof. by vm_compute. Qed.

(** White space of Unicode around a Boolean word is stripped: U+001F after
    the word, U+00A0 and U+2003 before it. *)
Example boolean_strips_white_space :
  ansible_boolean (Some ("yes" +:+ String (ascii_of_nat 31) EmptyString))
  = inr (Some true) ∧
  ansible_boolean
    (Some (String (ascii_of_nat 194) (String (ascii_of_nat 160)
             (String (ascii_of_nat 226) (String (ascii_of_nat 128)
                (String (ascii_of_nat 131) "Off")))))) = inr (Some false) ∧
  ansible_boolean (Some ("y" +:+ String (ascii_of_nat 194) "es"))
  = inl ("The value 'y" +:+ String (ascii_of_nat 194) "es"
         +:+ "' is not a valid boolean.").
Proof. by vm_compute. Qed.

(** [overwrite=maybe] is rejected: a value outside the four policies is not
    always coerced. *)
Lemma overwrite_rejected_counterexample :
  ¬ overwrite_never_rejected plain_host (put_request false "never" None true)
      tt.
Proof.
  intros H. destruct (H (Some "maybe")) as (v' & Ho & _).
  - apply (bool_decide_unpack _). by vm_compute.
  - eexists. by vm_compute.
  - vm_compute in Ho. discriminate Ho.
Qed.

(** * Signature fallback and check mode *)

Section Modes.
Context {St : Type}.
Variable respond : St → conn → ∀ c : api_call, St * (boto_exn + reply c).
Variable h : host.

(** In get, the retry after the signature fault looks up ["obj"] in
    [s3_vars], which has no such key: the operation reconnects and ends
    with a [KeyError], without a second download. *)
Lemma get_signature_fallback_key_error module connection (v : s3_vars) d s :
  let p := v_params v in
  let probe := key_check respond module connection (p_bucket p) (p_object p)
                 (p_version p) (v_validate v) s in
  let first := download_s3file respond module connection (p_bucket p)
                 (p_object p) (Some d) (p_retries p) (p_version p)
                 (final probe) in
  p_dest p = Some d →
  os_path_exists h d = false →
  outcome probe = inr true →
  outcome first = inl Sigv4Required →
  s3_object_do_get respond h module connection v s =
  Run (inl (KeyError "obj")) (final first)
    (trace probe ++ trace first
     ++ [Connect (Conn (v_location v) (p_ceph p) (p_endpoint_url p) true)]).
Proof.
  intros p probe first Hd Hp Hk Hf.
  rewrite (s3_object_do_get_fresh_dest respond h _ _ v d) by done.
  cbv zeta. fold p.
  erewrite bind_run_ok;
    [|fold probe; rewrite <- (run_eta probe), Hk; reflexivity].
  cbn [negb]. rewrite !ret_bind_run.
  erewrite bind_run_err; [reflexivity|].
  rewrite try_except_run. fold probe first. rewrite Hf.
  reflexivity.
Qed.

Lemma get_s3_connection_bind_run {B : Type} module location ceph
    endpoint_url sig_4 (f : conn → M (St:=St) B) s :
  (get_s3_connection module location ceph endpoint_url sig_4 ≫= f) s =
  after_event (Connect (Conn location ceph endpoint_url sig_4))
    (f (Conn location ceph endpoint_url sig_4) s).
Proof.
  unfold get_s3_connection.
  by rewrite bind_assoc_run, emit_bind_run, ret_bind_run.
Qed.

(** In getstr, the retry after the signature fault is the whole download
    again, once, on a client with signature version 4: the operation ends
    as this second download ends. *)
Lemma getstr_signature_fallback module connection (v : s3_vars) s :
  let p := v_params v in
  let probe := key_check respond module connection (p_bucket p) (p_object p)
                 (p_version p) (v_validate v) s in
  let first := download_s3str respond module connection (p_bucket p)
                 (p_object p) (p_version p) (final probe) in
  let sig_4 := Conn (v_location v) (p_ceph p) (p_endpoint_url p) true in
  let second := download_s3str respond module sig_4 (p_bucket p)
                  (p_object p) (p_version p) (final first) in
  String.eqb (p_bucket p) EmptyString = false →
  truthy (p_object p) = true →
  outcome probe = inr true →
  outcome first = inl Sigv4Required →
  s3_object_do_getstr respond module connection v s =
  Run (outcome second) (final second)
    (trace probe ++ trace first ++ Connect sig_4 :: trace second).
Proof.
  intros p probe first sig_4 second Hb Ho Hk Hf.
  unfold s3_object_do_getstr. cbv zeta. fold p. rewrite Hb, Ho. cbn [negb andb].
  erewrite bind_run_ok;
    [|fold probe; rewrite <- (run_eta probe), Hk; reflexivity].
  cbv beta iota. rewrite try_except_run. fold probe first. rewrite Hf.
  rewrite get_s3_connection_bind_run. fold sig_4 second.
  unfold after_event. cbn [outcome final trace]. reflexivity.
Qed.

(** In check mode, every step that creates, deletes, uploads, downloads or
    copies ends the module before it calls the service. *)
Lemma check_mode_guards module s3 bucket obj s :
  check_mode module = true →
  (∀ expiry metadata encrypt headers src content acl_disabled,
     trace (upload_s3file respond module s3 bucket obj expiry metadata
              encrypt headers src content acl_disabled s) = []) ∧
  (∀ dest retries version,
     trace (download_s3file respond module s3 bucket obj dest retries
              version s) = []) ∧
  (∀ version, trace (download_s3str respond module s3 bucket obj version s)
              = []) ∧
  trace (delete_key respond module s3 bucket obj s) = [] ∧
  (∀ encrypt expiry,
     trace (create_dirkey respond module s3 bucket obj encrypt expiry s)
     = []) ∧
  (∀ encrypt metadata validate d_etag,
     trace (copy_object_to_bucket respond module s3 bucket obj encrypt
              metadata validate d_etag s) = []) ∧
  (∀ location,
     calls_of (trace (create_bucket respond module s3 bucket location s))
     = []) ∧
  calls_of (trace (delete_bucket respond module s3 bucket s)) = [].
Proof.
  intros Hc.
  repeat split; intros;
    unfold upload_s3file, download_s3file, download_s3str, delete_key,
      create_dirkey, copy_object_to_bucket, create_bucket, delete_bucket,
      check_mode_exit;
    rewrite Hc; reflexivity.
Qed.

End Modes.

(** C3.  A get whose first attempt meets the signature fault does not
    succeed: on a store that refuses reads without signature version 4,
    the module reads the object once, reconnects with signature version 4,
    and ends with [KeyError: 'obj'] before a second read and before any
    file transfer. *)
Theorem get_signature_fallback_fails :
  let r := main fake_respond plain_host (get_request mode_get 0 false)
             sig_4_store in
  outcome r = inl (KeyError "obj") ∧
  calls_of (trace r) =
    [HeadBucket "bkt"; GetBucketOwnershipControls "bkt"; HeadBucket "bkt";
     HeadObject "bkt" (Some "k") None; GetObject "bkt" (Some "k") None] ∧
  List.filter (λ ev, match ev with Connect _ => true | _ => false end)
    (trace r)
  = [Connect (Conn "eu-west-1" false None false);
     Connect (Conn "eu-west-1" false None true)] ∧
  downloads (trace r) = 0%nat.
Proof. by vm_compute. Qed.

(** The same fault in getstr: one reconnection, one more read, and the
    contents are returned. *)
Example getstr_signature_fallback_succeeds :
  let r := main fake_respond plain_host (get_request mode_getstr 0 false)
             sig_4_store in
  outcome r =
    inl (SystemExit (ExitJson (ExitKwargs (Some "GET operation complete")
           (Some true) None None None (Some "hello") None None))) ∧
  List.filter
    (λ ev, match ev with
           | Connect _ | Api _ (GetObject _ _ _) => true
           | _ => false
           end) (trace r)
  = [Connect (Conn "eu-west-1" false None false);
     Api (Conn "eu-west-1" false None false)
       (GetObject "bkt" (Some "k") None);
     Connect (Conn "eu-west-1" false None true);
     Api (Conn "eu-west-1" false None true)
       (GetObject "bkt" (Some "k") None)].
Proof. by vm_compute. Qed.

(** C4.  Check mode does not stop every mutating call: a put in check mode
    with [overwrite=never] on a key that is there, tagged [a=1], with the
    desired tags [b=2], replaces the remote tags. *)
Theorem check_mode_put_writes_tags :
  let module := put_request true "never" (Some {[ "b" := "2" ]}) true in
  let r := main fake_respond plain_host module sample_store in
  check_mode module = true ∧
  remote_tags sample_store "bkt" "k" = Some {[ "a" := "1" ]} ∧
  remote_tags (final r) "bkt" "k" = Some {[ "b" := "2" ]} ∧
  List.filter is_mutation (trace r)
  = [Api aws (PutObjectTagging "bkt" (Some "k") {[ "b" := "2" ]})] ∧
  outcome r =
    inl (SystemExit (ExitJson (ExitKwargs (Some "Download url:") (Some true)
           (Some "https://bkt.s3.amazonaws.com/k?method=get_object")
           (Some {[ "b" := "2" ]}) (Some 600) None None None))).
Proof. by vm_compute. Qed.

(** The other steps of put are stopped by check mode: with
    [overwrite=always] nothing is changed. *)
Example check_mode_put_upload_skipped :
  let module := put_request true "always" (Some {[ "b" := "2" ]}) true in
  let r := main fake_respond plain_host module sample_store in
  final r = sample_store ∧
  List.filter is_mutation (trace r) = [] ∧
  outcome r =
    inl (SystemExit (ExitJson (msg_changed
           "PUT operation skipped - running in check mode" true))).
Proof. by vm_compute. Qed.

(** The round trip of the spec: a put of ["hello"], then a getstr. *)
Example put_then_getstr :
  let module :=
    AnsibleModule false
      (set_content (Some "hello") (default_params "new" mode_put (Some "k"))) in
  let stored := main fake_respond plain_host module (store_with "new" []) in
  outcome (main fake_respond plain_host
             (AnsibleModule false (default_params "new" mode_getstr (Some "k")))
             (final stored))
  = inl (SystemExit (ExitJson (ExitKwargs (Some "GET operation complete")
           (Some true) None None None (Some "hello") None None))).
Proof. by vm_compute. Qed.
